(** * The unified inference proxy (ai-inference-proxy/app.py)

    A shallow embedding of the proxy's catalog cache, protocol translators,
    streaming relay and request orchestrator, and the properties of them
    that the specification states.

    Conventions of the embedding.
    - Python [str] is [string]; only length, slicing and [split(":")] are
      used on it.  Python [int] is [Z], Python [float] is the binary64
      [float].
    - A [datetime] is the number of microseconds it denotes (its resolution),
      so that [(a - b).total_seconds() < 60] is [a - b < 60000000].
    - JSON objects exchanged with the two backends are records whose
      optional keys are [option] fields, at the types the backends'
      protocols give them.
    - The module-level globals, the wall clock, the random identifiers and
      the outbound HTTP traffic are threaded through a state and exception
      monad; what the outside world answers is read from an [environment].
      Requests are run one at a time.
    - Log lines ([logger.info] and the like) and the shared HTTP client
      ([get_http_client]) are not modelled. *)

From Stdlib Require Import String Ascii List ZArith Bool Lia.
From Stdlib Require Import Floats.PrimFloat.
Import ListNotations.

Local Open Scope string_scope.
Local Open Scope Z_scope.

(** ** Python values *)

Module Py.

(** [s.split(sep)] for a one-character separator: never empty. *)
Fixpoint split (sep : ascii) (s : string) : list string :=
  match s with
  | EmptyString => [EmptyString]
  | String c r =>
      if Ascii.eqb c sep then EmptyString :: split sep r
      else match split sep r with
           | h :: t => String c h :: t
           | [] => [String c EmptyString]
           end
  end.

(** [s[n:]] for [0 <= n]. *)
Fixpoint slice_from (n : nat) (s : string) : string :=
  match n, s with
  | O, _ => s
  | S n', String _ r => slice_from n' r
  | S _, EmptyString => EmptyString
  end.

(** [s[:n]] for [0 <= n]. *)
Fixpoint slice_to (n : nat) (s : string) : string :=
  match n, s with
  | S n', String c r => String c (slice_to n' r)
  | _, _ => EmptyString
  end.

(** Truth value of a string: non-empty. *)
Definition str_bool (s : string) : bool :=
  match s with EmptyString => false | String _ _ => true end.

(** [x in l] for a list of strings. *)
Definition list_in (x : string) (l : list string) : bool :=
  existsb (String.eqb x) l.

(** [d.get(k, default)] turned into a value. *)
Definition get {A} (field : option A) (default : A) : A :=
  match field with Some v => v | None => default end.

(** A [dict] with string keys, in insertion order: assigning to a key that
    is already there keeps its position. *)
Definition dict (V : Type) : Type := list (string * V).

Fixpoint dict_set {V} (d : dict V) (k : string) (v : V) : dict V :=
  match d with
  | [] => [(k, v)]
  | (k', v') :: r =>
      if String.eqb k k' then (k, v) :: r else (k', v') :: dict_set r k v
  end.

Fixpoint dict_get {V} (d : dict V) (k : string) : option V :=
  match d with
  | [] => None
  | (k', v') :: r => if String.eqb k k' then Some v' else dict_get r k
  end.

Definition dict_keys {V} (d : dict V) : list string := map fst d.

Definition dict_contains {V} (k : string) (d : dict V) : bool :=
  list_in k (dict_keys d).

(** Truth value of a dict: non-empty. *)
Definition dict_bool {V} (d : dict V) : bool :=
  match d with [] => false | _ :: _ => true end.

End Py.

Import Py.

(** The base name of a model identifier: [name.split(":")[0]]. *)
Definition base_name (model_name : string) : string :=
  hd EmptyString (split ":" model_name).

(** ** Data model *)

(** *** The inbound request (pydantic models) *)

Record ChatMessage := {
  msg_role : string;
  msg_content : string
}.

Record ChatRequest := {
  model : string;
  messages : list ChatMessage;
  temperature : option float;
  max_tokens : option Z;
  top_p : option float;
  frequency_penalty : option float;
  presence_penalty : option float;
  stream : option bool
}.

(** The request that validation builds from a body naming only the model
    and the messages: the declared defaults. *)
Definition ChatRequest_defaults (m : string) (msgs : list ChatMessage)
  : ChatRequest :=
  {| model := m; messages := msgs;
     temperature := Some 0x1.6666666666666p-1%float;  (* 0.7 *)
     max_tokens := None; top_p := None;
     frequency_penalty := None; presence_penalty := None;
     stream := Some false |}.

(** The [backend] query parameter, when given. *)
Inductive backend_literal := local | cloud | auto.

Definition backend_str (b : backend_literal) : string :=
  match b with local => "local" | cloud => "cloud" | auto => "auto" end.

(** *** The local runtime's protocol *)

(** One entry of [GET /api/tags]. *)
Record model_descriptor := {
  md_name : option string;
  md_size : option Z;
  md_digest : option string
}.

Record tags_body := {
  tags_models : option (list model_descriptor)
}.

(** A value of the [options] object. *)
Inductive option_value :=
| OptFloat (f : float)
| OptInt (z : Z).

(** The body of [POST /api/chat]. *)
Record ollama_request := {
  oreq_model : string;
  oreq_messages : list ChatMessage;
  oreq_stream : option bool;
  oreq_options : option (dict option_value)
}.

Record ollama_message := {
  om_role : option string;
  om_content : option string
}.

(** An answer of [POST /api/chat]: the whole answer, or one line of the
    stream. *)
Record ollama_object := {
  oo_message : option ollama_message;
  oo_done : option bool;
  oo_prompt_eval_count : option Z;
  oo_eval_count : option Z
}.

(** *** The canonical response *)

Record usage := {
  prompt_tokens : option Z;
  completion_tokens : option Z;
  total_tokens : option Z
}.

Record choice := {
  ch_index : Z;
  ch_message : ChatMessage;
  ch_finish_reason : option string
}.

Record completion := {
  cmpl_id : string;
  cmpl_model : string;
  cmpl_object : string;
  cmpl_created : Z;
  cmpl_choices : list choice;
  cmpl_usage : option usage
}.

(** *** Stream events *)

Record chunk_choice := {
  cc_index : Z;
  cc_delta : option string;      (* [{"content": d}], or [{}] *)
  cc_finish_reason : option string
}.

Record chunk := {
  ck_id : string;
  ck_object : string;
  ck_created : Z;
  ck_model : string;
  ck_choices : list chunk_choice;
  ck_usage : option usage
}.

(** What the relay yields: ["data: <chunk>\n\n"] or ["data: [DONE]\n\n"]. *)
Inductive sse :=
| sse_data (c : chunk)
| sse_DONE.

(** ** The world around the proxy *)

(** The outcome of an outbound HTTP call: the call raises (connection
    refused, timeout), or a response arrives; [json] is what
    [response.json()] gives, [None] when the body is not JSON of the shape
    the protocol gives it, so that decoding or reading it raises. *)
Inductive http_result (B : Type) :=
| TransportFault
| Response (status_code : Z) (text : string) (json : option B).

Arguments TransportFault {B}.
Arguments Response {B} status_code text json.

(** One line of the local runtime's streamed answer, with what
    [json.loads] makes of it; [Broken] is the point where reading the next
    line raises. *)
Inductive stream_line :=
| Blank
| Invalid (raw : string)
| Parsed (data : ollama_object)
| Broken.

(** The outcome of opening the streamed [POST /api/chat]: the status line,
    the body as text (read only on an error status), and the lines that
    [aiter_lines] delivers. *)
Inductive stream_result :=
| StreamFault
| StreamResponse (status_code : Z) (text : string) (lines : list stream_line).

Inductive call :=
| GET_api_tags
| POST_api_chat (body : ollama_request)
| POST_chat_completions (body : ChatRequest).

Inductive metric :=
| BACKEND_SELECTION (backend method : string)
| FALLBACK_COUNT (from_backend to_backend : string)
| REQUEST_DURATION (backend model_label : string) (microseconds : Z)
| REQUEST_COUNT (backend model_label status : string)
| TOKEN_USAGE (backend model_label type : string) (amount : Z)
| OLLAMA_MODELS_CACHE (n : Z).

Inductive event :=
| Sent (c : call)
| Observed (m : metric).

(** The module's globals, and what the process has done so far. *)
Record state := {
  ollama_models_cache : dict model_descriptor;
  ollama_cache_timestamp : option Z;
  clock_reads : nat;
  ids_drawn : nat;
  trace : list event
}.

(** The configuration and the behaviour of everything outside the process.
    The backends see the trace so far: they need not answer twice the same
    way. [chat_completions] of the cloud provider receives
    [chat_request.dict(exclude_none=True)], the request without its unset
    fields. *)
Record environment := {
  OPENROUTER_API_KEY : option string;
  DEFAULT_BACKEND : string;
  datetime_at : nat -> Z;
  uuid4_hex : nat -> string;
  api_tags : list event -> http_result tags_body;
  api_chat : list event -> ollama_request -> http_result ollama_object;
  api_chat_stream : list event -> ollama_request -> stream_result;
  chat_completions_upstream : list event -> ChatRequest -> http_result completion
}.

Definition OLLAMA_CACHE_TTL : Z := 60.

Definition microseconds (seconds : Z) : Z := seconds * 1000000.

(** [int(d.timestamp())] *)
Definition int_timestamp (d : Z) : Z := Z.quot d 1000000.

(** The calls a trace holds, in order. *)
Fixpoint calls (t : list event) : list call :=
  match t with
  | [] => []
  | Sent c :: r => c :: calls r
  | Observed _ :: r => calls r
  end.

(** ** Exceptions and state *)

Inductive exn :=
| HTTPException (status_code : Z) (detail : string)
| Exception (what : string).

Inductive result (A : Type) :=
| Return (a : A)
| Raise (e : exn).

Arguments Return {A} a.
Arguments Raise {A} e.

Definition M (A : Type) : Type := state -> result A * state.

Definition ret {A} (a : A) : M A := fun st => (Return a, st).

Definition bind {A B} (c : M A) (k : A -> M B) : M B :=
  fun st =>
    match c st with
    | (Return a, st') => k a st'
    | (Raise e, st') => (Raise e, st')
    end.

Definition raise {A} (e : exn) : M A := fun st => (Raise e, st).

(** [try: c  except <matching> as e: handler e]; what [c] did to the state
    before raising stays done. *)
Definition try_except {A} (c : M A) (handler : exn -> option (M A)) : M A :=
  fun st =>
    match c st with
    | (Return a, st') => (Return a, st')
    | (Raise e, st') =>
        match handler e with
        | Some h => h st'
        | None => (Raise e, st')
        end
    end.

Notation "x <- c1 ;; c2" := (bind c1 (fun x => c2))
  (at level 61, c1 at next level, right associativity).
Notation "' pat <- c1 ;; c2" :=
  (bind c1 (fun x => match x with pat => c2 end))
  (at level 61, pat pattern, c1 at next level, right associativity).
Notation "c1 ;; c2" := (bind c1 (fun _ => c2))
  (at level 61, right associativity).

Definition read {A} (f : state -> A) : M A := fun st => (Return (f st), st).

Definition emit (e : event) : M unit :=
  fun st =>
    (Return tt,
     {| ollama_models_cache := ollama_models_cache st;
        ollama_cache_timestamp := ollama_cache_timestamp st;
        clock_reads := clock_reads st;
        ids_drawn := ids_drawn st;
        trace := (trace st ++ [e])%list |}).

Definition set_catalog (models : dict model_descriptor) (stamp : Z) : M unit :=
  fun st =>
    (Return tt,
     {| ollama_models_cache := models;
        ollama_cache_timestamp := Some stamp;
        clock_reads := clock_reads st;
        ids_drawn := ids_drawn st;
        trace := trace st |}).

(** [Counter.inc(amount)] refuses a negative amount. *)
Definition counter_inc (m : Z -> metric) (amount : Z) : M unit :=
  if amount <? 0
  then raise (Exception "Counters can only be incremented by non-negative amounts.")
  else emit (Observed (m amount)).

Section Proxy.

Variable E : environment.

(** [datetime.now()]: the next reading of the wall clock. *)
Definition clock (st : state) : Z := datetime_at E (clock_reads st).

Definition tick (st : state) : state :=
  {| ollama_models_cache := ollama_models_cache st;
     ollama_cache_timestamp := ollama_cache_timestamp st;
     clock_reads := S (clock_reads st);
     ids_drawn := ids_drawn st;
     trace := trace st |}.

Definition datetime_now : M Z := fun st => (Return (clock st), tick st).

(** [f"chatcmpl-{uuid.uuid4().hex[:29]}"] *)
Definition new_response_id : M string :=
  fun st =>
    (Return ("chatcmpl-" ++ slice_to 29 (uuid4_hex E (ids_drawn st))),
     {| ollama_models_cache := ollama_models_cache st;
        ollama_cache_timestamp := ollama_cache_timestamp st;
        clock_reads := clock_reads st;
        ids_drawn := S (ids_drawn st);
        trace := trace st |}).

(** An outbound call: it is recorded, then the world answers. *)
Definition send {B} (c : call) (answer : list event -> http_result B)
  : M (Z * string * option B) :=
  history <- read trace ;;
  emit (Sent c) ;;
  match answer history with
  | TransportFault => raise (Exception "transport fault")
  | Response status_code text json => ret (status_code, text, json)
  end.

(** [response.json()] *)
Definition response_json {B} (json : option B) : M B :=
  match json with
  | Some b => ret b
  | None => raise (Exception "JSONDecodeError")
  end.

(** ** Backend catalog *)

(** The body of the [for] loop of [get_ollama_models]. *)
Definition cache_model (models : dict model_descriptor) (m : model_descriptor)
  : dict model_descriptor :=
  let model_name := get (md_name m) "" in
  let base := base_name model_name in
  dict_set (dict_set models base m) model_name m.

Definition get_ollama_models : M (list string) :=
  stamp <- read ollama_cache_timestamp ;;
  cached <-
    match stamp with
    | Some t =>
        now <- datetime_now ;;
        cache <- read ollama_models_cache ;;
        let cache_age := now - t in
        if (cache_age <? microseconds OLLAMA_CACHE_TTL) && dict_bool cache
        then ret (Some (dict_keys cache))
        else ret None
    | None => ret None
    end ;;
  match cached with
  | Some keys => ret keys
  | None =>
      try_except
        ('(status_code, _, json) <- send GET_api_tags (api_tags E) ;;
         if status_code =? 200 then
           data <- response_json json ;;
           let models := fold_left cache_model (get (tags_models data) []) [] in
           now <- datetime_now ;;
           set_catalog models now ;;
           emit (Observed (OLLAMA_MODELS_CACHE (Z.of_nat (length models)))) ;;
           ret (dict_keys models)
         else ret [])
        (fun _ => Some (ret []))
  end.

Definition detect_model_backend (model_name : string) : M string :=
  ollama_models <- get_ollama_models ;;
  if list_in model_name ollama_models then ret "local"
  else
    let base := base_name model_name in
    if list_in base ollama_models then ret "local"
    else ret "cloud".

(** ** Protocol translator *)

(** [request_data["options"] = request_data.get("options", {})] followed by
    [request_data["options"][key] = v]. *)
Definition set_option (request_data : ollama_request) (key : string)
    (v : option_value) : ollama_request :=
  {| oreq_model := oreq_model request_data;
     oreq_messages := oreq_messages request_data;
     oreq_stream := oreq_stream request_data;
     oreq_options := Some (dict_set (get (oreq_options request_data) []) key v) |}.

Definition transform_ollama_request (chat_request : ChatRequest)
  : ollama_request :=
  let model_name := base_name (model chat_request) in
  let request_data :=
    {| oreq_model := model_name;
       oreq_messages := messages chat_request;
       oreq_stream := stream chat_request;
       oreq_options := None |} in
  let request_data :=
    match temperature chat_request with
    | Some t => set_option request_data "temperature" (OptFloat t)
    | None => request_data
    end in
  let request_data :=
    match max_tokens chat_request with
    | Some n => set_option request_data "num_predict" (OptInt n)
    | None => request_data
    end in
  let request_data :=
    match top_p chat_request with
    | Some p => set_option request_data "top_p" (OptFloat p)
    | None => request_data
    end in
  request_data.

Definition transform_ollama_response (ollama_response : ollama_object)
    (model_name : string) : M completion :=
  response_id <- new_response_id ;;
  let message_content :=
    match oo_message ollama_response with
    | Some message => get (om_content message) ""
    | None => ""
    end in
  let prompt_tokens := get (oo_prompt_eval_count ollama_response) 0 in
  let completion_tokens := get (oo_eval_count ollama_response) 0 in
  created <- datetime_now ;;
  ret {| cmpl_id := response_id;
         cmpl_model := model_name;
         cmpl_object := "chat.completion";
         cmpl_created := int_timestamp created;
         cmpl_choices :=
           [ {| ch_index := 0;
                ch_message := {| msg_role := "assistant";
                                 msg_content := message_content |};
                ch_finish_reason :=
                  if get (oo_done ollama_response) false
                  then Some "stop" else None |} ];
         cmpl_usage :=
           Some {| prompt_tokens := Some prompt_tokens;
                   completion_tokens := Some completion_tokens;
                   total_tokens := Some (prompt_tokens + completion_tokens) |} |}.

(** ** Backend calls *)

Definition handle_ollama_request (chat_request : ChatRequest) : M completion :=
  let ollama_request := transform_ollama_request chat_request in
  '(status_code, text, json) <-
     send (POST_api_chat ollama_request)
          (fun history => api_chat E history ollama_request) ;;
  if negb (status_code =? 200)
  then raise (HTTPException status_code text)
  else
    response_data <- response_json json ;;
    transform_ollama_response response_data (model chat_request).

(** [not OPENROUTER_API_KEY] is [negb api_key_set]: unset, or empty. *)
Definition api_key_set : bool :=
  match OPENROUTER_API_KEY E with
  | Some key => str_bool key
  | None => false
  end.

Definition handle_openrouter_request (chat_request : ChatRequest)
  : M completion :=
  if negb api_key_set
  then raise (HTTPException 500 "OpenRouter API key not configured")
  else
    '(status_code, text, json) <-
       send (POST_chat_completions chat_request)
            (fun history => chat_completions_upstream E history chat_request) ;;
    if negb (status_code =? 200)
    then raise (HTTPException status_code text)
    else response_json json.

(** ** Streaming relay *)

(** How the generator [handle_ollama_stream] ends: by the [break] that
    follows the termination marker, because the lines ran out, or by an
    exception that nothing in it catches. *)
Inductive stream_end :=
| Completed
| Exhausted
| Failed (e : exn).

(** The [async for] loop of [handle_ollama_stream]: what it yields, how it
    ends, and the state it leaves.  [full_content] is the loop's variable
    of that name. *)
Fixpoint relay (response_id model_name full_content : string)
    (lines : list stream_line) (st : state) : list sse * stream_end * state :=
  match lines with
  | [] => ([], Exhausted, st)
  | Broken :: _ => ([], Failed (Exception "stream read error"), st)
  | Blank :: rest => relay response_id model_name full_content rest st
  | Invalid _ :: rest => relay response_id model_name full_content rest st
  | Parsed data :: rest =>
      let new_content :=
        match oo_message data with
        | Some message => om_content message
        | None => None
        end in
      let content_delta :=
        match new_content with
        | Some new_content => slice_from (String.length full_content) new_content
        | None => ""
        end in
      let full_content :=
        match new_content with
        | Some new_content => new_content
        | None => full_content
        end in
      let done := get (oo_done data) false in
      let '(first, st) :=
        if str_bool content_delta || done then
          ([ sse_data
               {| ck_id := response_id;
                  ck_object := "chat.completion.chunk";
                  ck_created := int_timestamp (clock st);
                  ck_model := model_name;
                  ck_choices :=
                    [ {| cc_index := 0;
                         cc_delta := if str_bool content_delta
                                     then Some content_delta else None;
                         cc_finish_reason :=
                           if done then Some "stop" else None |} ];
                  ck_usage := None |} ],
           tick st)
        else ([], st) in
      if done then
        let usage_chunk :=
          {| ck_id := response_id;
             ck_object := "chat.completion.chunk";
             ck_created := int_timestamp (clock st);
             ck_model := model_name;
             ck_choices :=
               [ {| cc_index := 0; cc_delta := None;
                    cc_finish_reason := Some "stop" |} ];
             ck_usage :=
               Some {| prompt_tokens := Some (get (oo_prompt_eval_count data) 0);
                       completion_tokens := Some (get (oo_eval_count data) 0);
                       total_tokens :=
                         Some (get (oo_prompt_eval_count data) 0
                               + get (oo_eval_count data) 0) |} |} in
        ((first ++ [sse_data usage_chunk; sse_DONE])%list, Completed, tick st)
      else
        let '(later, ending, st) :=
          relay response_id model_name full_content rest st in
        ((first ++ later)%list, ending, st)
  end.

Definition handle_ollama_stream (chat_request : ChatRequest) (st : state)
  : list sse * stream_end * state :=
  let ollama_request := transform_ollama_request chat_request in
  let history := trace st in
  match emit (Sent (POST_api_chat ollama_request)) st with
  | (_, st) =>
      match api_chat_stream E history ollama_request with
      | StreamFault => ([], Failed (Exception "transport fault"), st)
      | StreamResponse status_code text lines =>
          if negb (status_code =? 200)
          then ([], Failed (HTTPException status_code text), st)
          else
            match new_response_id st with
            | (Return response_id, st) =>
                relay response_id (model chat_request) "" lines st
            | (Raise e, st) => ([], Failed e, st)
            end
      end
  end.

(** ** Completion orchestrator *)

(** What [chat_completions] returns: a JSON body, or a [StreamingResponse]
    whose generator has not run yet.  For the local backend the generator is
    [handle_ollama_stream chat_request]; the generator that forwards the
    cloud provider's lines is not modelled. *)
Inductive reply :=
| JSONResponse (response_data : completion)
| StreamingResponse_local (chat_request : ChatRequest)
| StreamingResponse_cloud.

(** The handlers that close the [try] of the non-streaming path:
    [except HTTPException: raise] and [except Exception as e: ...]. *)
Definition on_error (selected_backend : string) (chat_request : ChatRequest)
    (A : Type) (e : exn) : option (M A) :=
  match e with
  | HTTPException _ _ => None
  | Exception _ =>
      Some (emit (Observed (REQUEST_COUNT selected_backend
                              (model chat_request) "error")) ;;
            raise (HTTPException 500 "Internal server error"))
  end.

(** The first half of that [try]: the backend call, with what
    [selected_backend] is afterwards. *)
Definition dispatch (selected_backend : string) (chat_request : ChatRequest)
  : M (completion * string) :=
  if String.eqb selected_backend "local" then
    response_data <- handle_ollama_request chat_request ;;
    ret (response_data, selected_backend)
  else
    if negb api_key_set then
      if String.eqb selected_backend "cloud" then
        raise (HTTPException 500 "OpenRouter API key not configured")
      else
        emit (Observed (FALLBACK_COUNT "local" "cloud")) ;;
        raise (HTTPException 404
                 ("Model " ++ model chat_request
                  ++ " not found locally and cloud not configured"))
    else
      try_except
        (response_data <- handle_openrouter_request chat_request ;;
         ret (response_data, selected_backend))
        (fun e =>
           match e with
           | HTTPException _ _ =>
               Some
                 (if String.eqb selected_backend "auto" then
                    emit (Observed (FALLBACK_COUNT "cloud" "local")) ;;
                    response_data <- handle_ollama_request chat_request ;;
                    ret (response_data, "local")
                  else raise e)
           | Exception _ => None
           end).

(** The second half: metrics of a successful call. *)
Definition record_metrics (request_start : Z) (selected_backend : string)
    (chat_request : ChatRequest) (response_data : completion) : M unit :=
  now <- datetime_now ;;
  let duration := now - request_start in
  emit (Observed (REQUEST_DURATION selected_backend (model chat_request)
                    duration)) ;;
  emit (Observed (REQUEST_COUNT selected_backend (model chat_request)
                    "success")) ;;
  match cmpl_usage response_data with
  | Some usage =>
      match prompt_tokens usage with
      | Some n =>
          counter_inc (fun a => TOKEN_USAGE selected_backend
                                  (model chat_request) "prompt" a) n
      | None => ret tt
      end ;;
      match completion_tokens usage with
      | Some n =>
          counter_inc (fun a => TOKEN_USAGE selected_backend
                                  (model chat_request) "completion" a) n
      | None => ret tt
      end
  | None => ret tt
  end.

(** [backend] is the query parameter: [None] when the request has none, in
    which case FastAPI passes [DEFAULT_BACKEND]. *)
Definition chat_completions (chat_request : ChatRequest)
    (backend : option backend_literal) : M reply :=
  request_start <- datetime_now ;;
  let selected_backend :=
    match backend with
    | Some b => backend_str b
    | None => DEFAULT_BACKEND E
    end in
  selected_backend <-
    (if String.eqb selected_backend "auto" then
       selected_backend <- detect_model_backend (model chat_request) ;;
       emit (Observed (BACKEND_SELECTION selected_backend "auto")) ;;
       ret selected_backend
     else
       emit (Observed (BACKEND_SELECTION selected_backend "manual")) ;;
       ret selected_backend) ;;
  if get (stream chat_request) false then
    if String.eqb selected_backend "local" then
      ret (StreamingResponse_local chat_request)
    else
      if negb api_key_set then
        raise (HTTPException 500 "OpenRouter API key not configured")
      else
        '(status_code, text, _) <-
           send (POST_chat_completions chat_request)
                (fun history =>
                   chat_completions_upstream E history chat_request) ;;
        if negb (status_code =? 200)
        then raise (HTTPException status_code text)
        else ret StreamingResponse_cloud
  else
    '(response_data, selected_backend) <-
       try_except (dispatch selected_backend chat_request)
                  (on_error selected_backend chat_request _) ;;
    try_except
      (record_metrics request_start selected_backend chat_request
                      response_data ;;
       ret (JSONResponse response_data))
      (on_error selected_backend chat_request _).

End Proxy.

(** ** Model listing and health

    [list_models] and [health_check], the two other endpoints that consult
    the catalog.  The call [list_models] makes to the cloud provider's
    [/models] is not recorded in the trace; what the provider answers to it
    is the argument [models_upstream]. *)

Record ModelInfo := {
  mi_id : string;
  mi_name : string;
  mi_description : option string;
  mi_context_length : option Z;
  mi_pricing : option (dict string);
  mi_backend : option string
}.

Record HealthResponse := {
  hr_status : string;
  hr_timestamp : Z;
  hr_version : string;
  hr_uptime_seconds : Z;
  hr_backends : dict string
}.

(** One entry of the cloud provider's [GET /models], and its body. *)
Record cloud_model := {
  cm_id : option string;
  cm_name : option string;
  cm_description : option string;
  cm_context_length : option Z;
  cm_pricing : option (dict string)
}.

Record cloud_models_body := {
  cmb_data : option (list cloud_model)
}.

(** The [backend] query parameter of [list_models]. *)
Inductive backend_filter := only_local | only_cloud | all_backends.

(** [ollama_models[model_name]], where [ollama_models] is the list of
    strings that [get_ollama_models] returns and [model_name] one of them:
    indexing a list by a string raises [TypeError].  The result type is that
    of the value the loop goes on to use. *)
Definition list_getitem (ollama_models : list string) (model_name : string)
  : result model_descriptor :=
  Raise (Exception "list indices must be integers or slices, not str").

(** The [for model_name in ollama_models] loop of [list_models], from the
    names still [todo]: the list [models] as the loop leaves it, and the
    exception that ended the loop, if one did. *)
Fixpoint local_entries (ollama_models todo : list string)
    (models : list ModelInfo) : list ModelInfo * option exn :=
  match todo with
  | [] => (models, None)
  | model_name :: rest =>
      match list_getitem ollama_models model_name with
      | Raise e => (models, Some e)
      | Return model_info =>
          let base := base_name model_name in
          let models :=
            if negb (existsb (fun m => String.eqb (mi_id m) base
                                       || String.eqb (mi_id m) model_name)
                             models)
            then (models ++ [ {| mi_id := base;
                                 mi_name := get (md_name model_info) base;
                                 mi_description := Some "Local model via Ollama";
                                 mi_context_length := None;
                                 mi_pricing := None;
                                 mi_backend := Some "local" |} ])%list
            else models in
          local_entries ollama_models rest models
      end
  end.

(** The [for model in models_data.get("data", [])] loop: [model["id"]]
    raises [KeyError] on an entry without id, which ends the loop with the
    entries appended so far. *)
Fixpoint cloud_entries (data : list cloud_model) (models : list ModelInfo)
  : list ModelInfo :=
  match data with
  | [] => models
  | m :: rest =>
      match cm_id m with
      | None => models
      | Some id =>
          cloud_entries rest
            (models ++ [ {| mi_id := id;
                            mi_name := get (cm_name m) id;
                            mi_description := cm_description m;
                            mi_context_length := cm_context_length m;
                            mi_pricing := cm_pricing m;
                            mi_backend := Some "cloud" |} ])%list
      end
  end.

Section Listing.

Variable E : environment.

Definition list_models (backend : backend_filter)
    (models_upstream : list event -> http_result cloud_models_body)
  : M (list ModelInfo) :=
  let models := [] in
  models <-
    match backend with
    | all_backends | only_local =>
        try_except
          (ollama_models <- get_ollama_models E ;;
           ret (fst (local_entries ollama_models ollama_models models)))
          (fun _ => Some (ret models))
    | only_cloud => ret models
    end ;;
  match backend with
  | all_backends | only_cloud =>
      if api_key_set E then
        history <- read trace ;;
        match models_upstream history with
        | TransportFault => ret models
        | Response status_code _ json =>
            if status_code =? 200 then
              match json with
              | None => ret models
              | Some models_data =>
                  ret (cloud_entries (get (cmb_data models_data) []) models)
              end
            else ret models
        end
      else ret models
  | only_local => ret models
  end.

(** [start_time] is the module global of that name, set when the module is
    loaded. *)
Definition health_check (start_time : Z) : M HealthResponse :=
  now <- datetime_now E ;;
  let uptime := now - start_time in
  backends <-
    try_except
      (get_ollama_models E ;;
       ret (dict_set [] "ollama" "available"))
      (fun _ => Some (ret (dict_set [] "ollama" "unavailable"))) ;;
  let backends :=
    if api_key_set E
    then dict_set backends "openrouter" "configured"
    else dict_set backends "openrouter" "not_configured" in
  stamp <- datetime_now E ;;
  ret {| hr_status := "healthy";
         hr_timestamp := stamp;
         hr_version := "1.0.0";
         hr_uptime_seconds := uptime;
         hr_backends := backends |}.

End Listing.

(** * Vocabulary of the properties *)

(** [c in s] for a character. *)
Fixpoint occurs (c : ascii) (s : string) : bool :=
  match s with
  | EmptyString => false
  | String c' r => Ascii.eqb c' c || occurs c r
  end.

(** *** Catalog *)

(** The test that lets [get_ollama_models] answer from the cache: a
    timestamp is set, the cache is younger than the time-to-live, and it is
    not empty. *)
Definition served_from_cache (E : environment) (st : state) : bool :=
  match ollama_cache_timestamp st with
  | Some t =>
      (clock E st - t <? microseconds OLLAMA_CACHE_TTL)
      && dict_bool (ollama_models_cache st)
  | None => false
  end.

(** What a refresh learns from the answer of the model-listing endpoint:
    the listed models when it succeeds, nothing when it fails. *)
Definition listed (answer : http_result tags_body)
  : option (list model_descriptor) :=
  match answer with
  | TransportFault => None
  | Response status_code _ json =>
      if status_code =? 200
      then match json with
           | Some data => Some (get (tags_models data) [])
           | None => None
           end
      else None
  end.

(** A refresh fails on a transport fault, on a status other than 200, and
    on a body that is not the JSON expected. *)
Definition refresh_fails (answer : http_result tags_body) : Prop :=
  match answer with
  | TransportFault => True
  | Response status_code _ json => status_code <> 200 \/ json = None
  end.

(** The claim that selection under Auto follows membership in the cache,
    at one model identifier: [m] or its base name is a key of the cache
    (as the lookup leaves it) exactly when the answer is "local", and the
    answer is "cloud" otherwise. *)
Definition selects_by_cache_membership (E : environment) (st : state)
    (m : string) : Prop :=
  let '(answer, st') := detect_model_backend E m st in
  let known := dict_contains m (ollama_models_cache st')
               || dict_contains (base_name m) (ollama_models_cache st') in
  answer = Return (if known then "local" else "cloud").

(** The lookup has an answer: the cache serves it, or the refresh
    succeeds. *)
Definition lookup_answers (E : environment) (st : state) : bool :=
  served_from_cache E st
  || match listed (api_tags E (trace st)) with
     | Some _ => true
     | None => false
     end.

(** *** Translator *)

(** The value of [key] in the [options] object of a request to the local
    runtime; [None] when the key, or the object, is not there. *)
Definition option_of (request_data : ollama_request) (key : string)
  : option option_value :=
  match oreq_options request_data with
  | Some options => dict_get options key
  | None => None
  end.

(** *** Stream *)

(** The text an event of the local runtime carries. *)
Definition text_of (data : ollama_object) : option string :=
  match oo_message data with
  | Some message => om_content message
  | None => None
  end.

(** [events] carry cumulative text: after [so_far], each event carries the
    text before it extended by the next of [fragments]. *)
Fixpoint cumulative (so_far : string) (fragments : list string)
    (events : list ollama_object) : Prop :=
  match fragments, events with
  | [], [] => True
  | d :: fragments, data :: events =>
      text_of data = Some (so_far ++ d)
      /\ cumulative (so_far ++ d) fragments events
  | _, _ => False
  end.

(** The events among [lines], and whether every one of [lines] can be
    read. *)
Fixpoint events_of (lines : list stream_line) : list ollama_object :=
  match lines with
  | [] => []
  | Parsed data :: rest => data :: events_of rest
  | _ :: rest => events_of rest
  end.

Fixpoint readable (lines : list stream_line) : bool :=
  match lines with
  | [] => true
  | Broken :: _ => false
  | _ :: rest => readable rest
  end.

(** The content deltas that a sequence of yielded events carries. *)
Definition delta_of (e : sse) : list string :=
  match e with
  | sse_data c =>
      flat_map (fun cc => match cc_delta cc with
                          | Some d => [d]
                          | None => []
                          end) (ck_choices c)
  | sse_DONE => []
  end.

Definition deltas (out : list sse) : list string := flat_map delta_of out.

(** An event that is neither the terminal usage event nor the termination
    marker. *)
Definition plain (e : sse) : Prop :=
  match e with
  | sse_data c => ck_usage c = None
  | sse_DONE => False
  end.

(** The backend signals completion: some line that can be read and parsed
    has [done] set. *)
Fixpoint signals_done (lines : list stream_line) : bool :=
  match lines with
  | [] => false
  | Broken :: _ => false
  | Parsed data :: rest => get (oo_done data) false || signals_done rest
  | _ :: rest => signals_done rest
  end.

(** The usage totals of an event of the local runtime, absent counters
    counting as zero. *)
Definition totals (data : ollama_object) : usage :=
  {| prompt_tokens := Some (get (oo_prompt_eval_count data) 0);
     completion_tokens := Some (get (oo_eval_count data) 0);
     total_tokens :=
       Some (get (oo_prompt_eval_count data) 0 + get (oo_eval_count data) 0) |}.

(** The fragments put end to end. *)
Definition join (fragments : list string) : string :=
  fold_right append "" fragments.

(** The delta that the loop of the relay computes for an event, and the
    value it leaves in [full_content]. *)
Definition delta_for (full_content : string) (data : ollama_object) : string :=
  match text_of data with
  | Some new_content => slice_from (String.length full_content) new_content
  | None => ""
  end.

Definition next_content (full_content : string) (data : ollama_object)
  : string :=
  match text_of data with
  | Some new_content => new_content
  | None => full_content
  end.

(** The two chunks the loop builds, yielded in state [st]. *)
Definition content_event (E : environment) (response_id model_name : string)
    (st : state) (content_delta : string) (done : bool) : sse :=
  sse_data
    {| ck_id := response_id;
       ck_object := "chat.completion.chunk";
       ck_created := int_timestamp (clock E st);
       ck_model := model_name;
       ck_choices :=
         [ {| cc_index := 0;
              cc_delta := if str_bool content_delta
                          then Some content_delta else None;
              cc_finish_reason := if done then Some "stop" else None |} ];
       ck_usage := None |}.

Definition usage_event (E : environment) (response_id model_name : string)
    (st : state) (data : ollama_object) : sse :=
  sse_data
    {| ck_id := response_id;
       ck_object := "chat.completion.chunk";
       ck_created := int_timestamp (clock E st);
       ck_model := model_name;
       ck_choices :=
         [ {| cc_index := 0; cc_delta := None;
              cc_finish_reason := Some "stop" |} ];
       ck_usage := Some (totals data) |}.

(** *** Orchestrator *)

(** The records of the two fallbacks the orchestrator has. *)
Definition fallback_to_local : event :=
  Observed (FALLBACK_COUNT "cloud" "local").

Definition fallback_to_cloud : event :=
  Observed (FALLBACK_COUNT "local" "cloud").

(** A computation that, from any state, only adds to the trace, records
    none of the events [bad], and returns only values that satisfy [P]. *)
Definition avoids {A} (bad : event -> Prop) (P : A -> Prop) (c : M A) : Prop :=
  forall st,
    exists new,
      trace (snd (c st)) = (trace st ++ new)%list
      /\ (forall e, In e new -> ~ bad e)
      /\ forall a, fst (c st) = Return a -> P a.

(** The backend a request names: its query parameter, or the configured
    default; and the three values the parameter can have. *)
Definition named_backend (E : environment) (backend : option backend_literal)
  : string :=
  match backend with
  | Some b => backend_str b
  | None => DEFAULT_BACKEND E
  end.

Definition well_named (selected_backend : string) : bool :=
  String.eqb selected_backend "auto"
  || String.eqb selected_backend "local"
  || String.eqb selected_backend "cloud".

(** *** Further vocabulary: catalog, listing, stream, calls *)

(** [k] is the full name or the base name of a listed model (a model
    without name counts as named by the empty string, as the code reads
    it). *)
Definition named_by (k : string) (d : model_descriptor) : bool :=
  String.eqb k (get (md_name d) "")
  || String.eqb k (base_name (get (md_name d) "")).

(** The entry [list_models] makes of a cloud model that has the id [id]. *)
Definition cloud_info (id : string) (m : cloud_model) : ModelInfo :=
  {| mi_id := id;
     mi_name := get (cm_name m) id;
     mi_description := cm_description m;
     mi_context_length := cm_context_length m;
     mi_pricing := cm_pricing m;
     mi_backend := Some "cloud" |}.

(** The entries of the cloud models up to the first one without id. *)
Fixpoint up_to_missing_id (data : list cloud_model) : list ModelInfo :=
  match data with
  | [] => []
  | m :: rest =>
      match cm_id m with
      | Some id => cloud_info id m :: up_to_missing_id rest
      | None => []
      end
  end.

(** What the cloud provider's answer to [/models] holds for the listing:
    the models of a 200 answer that decodes, nothing otherwise. *)
Definition cloud_listing (answer : http_result cloud_models_body)
  : list cloud_model :=
  match answer with
  | TransportFault => []
  | Response status_code _ json =>
      if status_code =? 200
      then match json with
           | Some models_data => get (cmb_data models_data) []
           | None => []
           end
      else []
  end.

(** A line of the stream that is neither empty nor malformed. *)
Definition carries_payload (line : stream_line) : bool :=
  match line with
  | Blank | Invalid _ => false
  | Parsed _ | Broken => true
  end.

(** A yielded event as the relay builds them: the termination marker, or a
    chunk under the stream's identifier and model, with one choice, of
    index 0, that has a non-empty delta or, failing that, the finish reason
    "stop". *)
Definition well_formed (response_id model_name : string) (e : sse) : Prop :=
  match e with
  | sse_DONE => True
  | sse_data c =>
      ck_id c = response_id
      /\ ck_model c = model_name
      /\ ck_object c = "chat.completion.chunk"
      /\ exists cc,
           ck_choices c = [cc]
           /\ cc_index cc = 0
           /\ cc_delta cc <> Some ""
           /\ (cc_delta cc = None -> cc_finish_reason cc = Some "stop")
  end.

(** The usage counters a response carries are not negative. *)
Definition countable (response_data : completion) : Prop :=
  forall u, cmpl_usage response_data = Some u ->
    (forall n, prompt_tokens u = Some n -> 0 <= n)
    /\ (forall n, completion_tokens u = Some n -> 0 <= n).

(** Events that record a call other than [c]; events that record a call to
    the cloud provider. *)
Definition calls_other_than (c : call) (e : event) : Prop :=
  exists c', e = Sent c' /\ c' <> c.

Definition calls_cloud (e : event) : Prop :=
  exists body, e = Sent (POST_chat_completions body).

(** *** Worlds and requests of the examples *)

(** The process at startup: nothing cached, nothing done. *)
Definition startup : state :=
  {| ollama_models_cache := [];
     ollama_cache_timestamp := None;
     clock_reads := 0;
     ids_drawn := 0;
     trace := [] |}.

Definition llama3 : model_descriptor :=
  {| md_name := Some "llama3:latest";
     md_size := Some 4661224676;
     md_digest := Some "365c0bd3c000" |}.

Definition hello : list ChatMessage :=
  [ {| msg_role := "user"; msg_content := "Hello" |} ].

(** A world in which every reading of the clock is [step] microseconds
    after the one before, and each backend answers every call the same
    way, except that the model listing answers [first_tags] to the first
    call and [tags] afterwards. *)
Definition world (key : option string) (step : Z)
    (first_tags tags : http_result tags_body)
    (chat : http_result ollama_object) (lines : stream_result)
    (upstream : http_result completion) : environment :=
  {| OPENROUTER_API_KEY := key;
     DEFAULT_BACKEND := "auto";
     datetime_at := fun n => 1700000000000000 + Z.of_nat n * step;
     uuid4_hex := fun _ => "0123456789abcdef0123456789abcdef";
     api_tags := fun history =>
                   match calls history with
                   | [] => first_tags
                   | _ :: _ => tags
                   end;
     api_chat := fun _ _ => chat;
     api_chat_stream := fun _ _ => lines;
     chat_completions_upstream := fun _ _ => upstream |}.

Definition lists (l : list model_descriptor) : http_result tags_body :=
  Response 200 "" (Some {| tags_models := Some l |}).

Definition unavailable {B} : http_result B :=
  Response 503 "Service Unavailable" None.

(** The local runtime lists llama3 once, then goes away; the clock is read
    every 61 seconds. *)
Definition outage : environment :=
  world None (microseconds 61) (lists [llama3]) unavailable
        TransportFault StreamFault TransportFault.

(** The local runtime is there and has no model; all readings of the clock
    give the same instant. *)
Definition bare : environment :=
  world None 0 (lists []) (lists [])
        TransportFault StreamFault TransportFault.

(** An event of the local runtime carrying [text]; the one that has
    [done] set carries the counters too. *)
Definition says (text : string) (done : bool) : ollama_object :=
  {| oo_message := Some {| om_role := Some "assistant";
                           om_content := Some text |};
     oo_done := Some done;
     oo_prompt_eval_count := if done then Some 12 else None;
     oo_eval_count := if done then Some 3 else None |}.

(** The local runtime streams "Hi", "Hi there", "Hi there!", each event
    with the whole text so far, and signals completion with the third;
    an empty line and a line that is not JSON come in between. *)
Definition hi_there : list stream_line :=
  [ Parsed (says "Hi" false);
    Blank;
    Parsed (says "Hi there" false);
    Invalid "{";
    Parsed (says "Hi there!" true) ].

Definition chatty : environment :=
  world None 1000000 (lists [llama3]) (lists [llama3]) TransportFault
        (StreamResponse 200 "" hi_there) TransportFault.

Definition ask (m : string) (streamed : bool) : ChatRequest :=
  {| model := m; messages := hello;
     temperature := Some 0x1.6666666666666p-1%float;
     max_tokens := None; top_p := None;
     frequency_penalty := None; presence_penalty := None;
     stream := Some streamed |}.

(** The last event of an answer that omits the counter of generated
    tokens; and a world in which the local runtime gives it as the whole
    answer, and streams it as the first line that has [done] set, another
    such line coming after it. *)
Definition uncounted : ollama_object :=
  {| oo_message := Some {| om_role := Some "assistant";
                           om_content := Some "Hi" |};
     oo_done := Some true;
     oo_prompt_eval_count := Some 12;
     oo_eval_count := None |}.

Definition terse : environment :=
  world None 1000000 (lists [llama3]) (lists [llama3])
        (Response 200 "" (Some uncounted))
        (StreamResponse 200 ""
           [ Parsed (says "Hi" false); Blank; Parsed uncounted;
             Parsed (says "Hi again" true) ])
        TransportFault.

(** A whole answer of the local runtime. *)
Definition hi : http_result ollama_object :=
  Response 200 "" (Some (says "Hi there!" true)).

(** The local runtime serves llama3 and answers; a cloud credential is
    configured, and the cloud provider answers 503. *)
Definition cloud_down : environment :=
  world (Some "sk-or-v1-0000") 1000000 (lists [llama3]) (lists [llama3]) hi
        StreamFault unavailable.

(** The local runtime serves llama3 and answers; no cloud credential is
    configured. *)
Definition no_cloud : environment :=
  world None 1000000 (lists [llama3]) (lists [llama3]) hi
        StreamFault TransportFault.

(** A cloud credential is configured, and the cloud provider answers 500. *)
Definition cloud_broken : environment :=
  world (Some "sk-or-v1-0000") 1000000 (lists [llama3]) (lists [llama3]) hi
        StreamFault (Response 500 "Internal Server Error" None).

Definition llama3_8b : model_descriptor :=
  {| md_name := Some "llama3:8b";
     md_size := Some 4661224676;
     md_digest := Some "a6990ed6be41" |}.

Definition mistral : model_descriptor :=
  {| md_name := Some "mistral";
     md_size := Some 4113301824;
     md_digest := Some "f974a74358d6" |}.

(** The local runtime lists two tags of llama3, and mistral. *)
Definition two_tags : environment :=
  world None 1000000 (lists [llama3; mistral; llama3_8b])
        (lists [llama3; mistral; llama3_8b]) hi StreamFault TransportFault.

(** The clock is read every 60 seconds: the time-to-live, to the
    microsecond. *)
Definition on_the_minute : environment :=
  world None (microseconds 60) (lists [llama3]) (lists [llama3]) hi
        StreamFault TransportFault.

(** The local runtime streams one event and the connection breaks. *)
Definition cut_off : environment :=
  world None 1000000 (lists [llama3]) (lists [llama3]) TransportFault
        (StreamResponse 200 "" [Parsed (says "Hi" false); Broken])
        TransportFault.

(** The local runtime cannot be reached; a cloud credential is configured
    and the cloud provider answers. *)
Definition answered : completion :=
  {| cmpl_id := "gen-1700000000-abc";
     cmpl_model := "gpt-4o";
     cmpl_object := "chat.completion";
     cmpl_created := 1700000000;
     cmpl_choices :=
       [ {| ch_index := 0;
            ch_message := {| msg_role := "assistant"; msg_content := "Hello!" |};
            ch_finish_reason := Some "stop" |} ];
     cmpl_usage := Some {| prompt_tokens := Some 9;
                           completion_tokens := Some 2;
                           total_tokens := Some 11 |} |}.

Definition local_down : environment :=
  world (Some "sk-or-v1-0000") 1000000 TransportFault TransportFault
        TransportFault StreamFault (Response 200 "" (Some answered)).

(** A cloud credential is configured and the cloud provider cannot be
    reached; the local runtime serves llama3 and answers. *)
Definition cloud_down_hard : environment :=
  world (Some "sk-or-v1-0000") 1000000 (lists [llama3]) (lists [llama3]) hi
        StreamFault TransportFault.

(** The local runtime lists llama3 and answers a chat call with 404. *)
Definition model_gone : environment :=
  world None 1000000 (lists [llama3]) (lists [llama3])
        (Response 404 "model not found" None) StreamFault TransportFault.

(** Answers of the cloud provider's [/models]: two models; and three of
    which the second has no id. *)
Definition gpt : cloud_model :=
  {| cm_id := Some "openai/gpt-4o";
     cm_name := Some "GPT-4o";
     cm_description := Some "OpenAI flagship";
     cm_context_length := Some 128000;
     cm_pricing := Some [("prompt", "0.0000025")] |}.

Definition claude : cloud_model :=
  {| cm_id := Some "anthropic/claude-3.5-sonnet";
     cm_name := None;
     cm_description := None;
     cm_context_length := Some 200000;
     cm_pricing := None |}.

Definition nameless : cloud_model :=
  {| cm_id := None;
     cm_name := Some "unnamed";
     cm_description := None;
     cm_context_length := None;
     cm_pricing := None |}.

Definition provider_lists (l : list cloud_model)
  : list event -> http_result cloud_models_body :=
  fun _ => Response 200 "" (Some {| cmb_data := Some l |}).

(** * Properties *)

(** ** Strings and dicts *)

Lemma split_cons sep s : exists h t, split sep s = h :: t.
Proof.
  induction s as [|c r IH]; simpl.
  - eauto.
  - destruct (Ascii.eqb c sep); [eauto|].
    destruct IH as (h & t & ->). eauto.
Qed.

(** The base name is the part of the identifier before its first colon. *)
Lemma base_name_before_colon a b :
  occurs ":" a = false -> base_name (a ++ String ":" b) = a.
Proof.
  unfold base_name. induction a as [|c r IH]; simpl; intros H.
  - reflexivity.
  - apply orb_false_iff in H. destruct H as [Hc Hr]. rewrite Hc.
    specialize (IH Hr).
    destruct (split_cons ":" (r ++ String ":" b)) as (h & t & Heq).
    rewrite Heq in *. simpl in *. now subst.
Qed.

Lemma base_name_without_colon s : occurs ":" s = false -> base_name s = s.
Proof.
  unfold base_name. induction s as [|c r IH]; simpl; intros H.
  - reflexivity.
  - apply orb_false_iff in H. destruct H as [Hc Hr]. rewrite Hc.
    specialize (IH Hr).
    destruct (split_cons ":" r) as (h & t & Heq).
    rewrite Heq in *. simpl in *. now subst.
Qed.

Lemma append_assoc (a b c : string) : ((a ++ b) ++ c = a ++ (b ++ c))%string.
Proof. induction a; simpl; congruence. Qed.

Lemma append_empty_r (a : string) : (a ++ "" = a)%string.
Proof. induction a; simpl; congruence. Qed.

Lemma slice_from_app a b : slice_from (String.length a) (a ++ b) = b.
Proof. induction a; simpl; auto. Qed.

Lemma calls_app t u : calls (t ++ u) = (calls t ++ calls u)%list.
Proof.
  induction t as [|[c|m] r IH]; simpl; auto. now rewrite IH.
Qed.

(** ** Backend catalog *)

Arguments microseconds : simpl never.

Ltac run :=
  unfold send, response_json, datetime_now, set_catalog, counter_inc;
  unfold bind, ret, raise, read, emit, try_except; simpl.

Section Catalog.

Variable E : environment.

(** A lookup that the cache serves reads the clock and nothing else. *)
Lemma lookup_served st :
  served_from_cache E st = true ->
  get_ollama_models E st
  = (Return (dict_keys (ollama_models_cache st)), tick st).
Proof.
  unfold served_from_cache, get_ollama_models.
  destruct (ollama_cache_timestamp st) as [t|] eqn:Ht; [|discriminate].
  intros H. run. rewrite Ht. simpl. now rewrite H.
Qed.

(** A lookup whose refresh fails answers the empty list and leaves the
    cache and its timestamp as they were. *)
Lemma lookup_failed st :
  served_from_cache E st = false ->
  listed (api_tags E (trace st)) = None ->
  exists st',
    get_ollama_models E st = (Return [], st')
    /\ ollama_models_cache st' = ollama_models_cache st
    /\ ollama_cache_timestamp st' = ollama_cache_timestamp st
    /\ trace st' = (trace st ++ [Sent GET_api_tags])%list.
Proof.
  unfold served_from_cache, get_ollama_models, listed.
  intros Hs Hl. run.
  destruct (ollama_cache_timestamp st) as [t|] eqn:Ht; simpl.
  - rewrite Hs. simpl.
    destruct (api_tags E (trace st)) as [|code text json]; simpl.
    + eexists; repeat split; simpl; auto.
    + destruct (code =? 200); simpl.
      * destruct json; [discriminate|]. simpl.
        eexists; repeat split; simpl; auto.
      * eexists; repeat split; simpl; auto.
  - destruct (api_tags E (trace st)) as [|code text json]; simpl.
    + eexists; repeat split; simpl; auto.
    + destruct (code =? 200); simpl.
      * destruct json; [discriminate|]. simpl.
        eexists; repeat split; simpl; auto.
      * eexists; repeat split; simpl; auto.
Qed.

(** A lookup whose refresh succeeds replaces the cache by the listed
    models, under their base names and their full names, and answers its
    keys. *)
Lemma lookup_refreshed st l :
  served_from_cache E st = false ->
  listed (api_tags E (trace st)) = Some l ->
  exists st',
    get_ollama_models E st
    = (Return (dict_keys (fold_left cache_model l [])), st')
    /\ ollama_models_cache st' = fold_left cache_model l []
    /\ ollama_cache_timestamp st' <> None
    /\ trace st'
       = (trace st
          ++ [Sent GET_api_tags;
              Observed (OLLAMA_MODELS_CACHE
                          (Z.of_nat (length (fold_left cache_model l []))))])%list.
Proof.
  unfold served_from_cache, get_ollama_models, listed.
  intros Hs Hl. run.
  destruct (ollama_cache_timestamp st) as [t|] eqn:Ht; simpl.
  - rewrite Hs. simpl.
    destruct (api_tags E (trace st)) as [|code text json]; [discriminate|].
    simpl. destruct (code =? 200); [|discriminate].
    destruct json as [data|]; [|discriminate]. injection Hl as <-. simpl.
    eexists; repeat split; simpl; auto; try discriminate.
    now rewrite <- app_assoc.
  - destruct (api_tags E (trace st)) as [|code text json]; [discriminate|].
    simpl. destruct (code =? 200); [|discriminate].
    destruct json as [data|]; [|discriminate]. injection Hl as <-. simpl.
    eexists; repeat split; simpl; auto; try discriminate.
    now rewrite <- app_assoc.
Qed.

Lemma refresh_fails_listed answer : refresh_fails answer -> listed answer = None.
Proof.
  destruct answer as [|code text json]; simpl; auto.
  intros [H| ->].
  - destruct (Z.eqb_spec code 200); [contradiction|reflexivity].
  - now destruct (code =? 200).
Qed.

(** Selection under Auto looks the identifier, then its base name, up in
    what the lookup returns. *)
Lemma detect_after_lookup m st models st' :
  get_ollama_models E st = (Return models, st') ->
  detect_model_backend E m st
  = (Return (if list_in m models || list_in (base_name m) models
             then "local" else "cloud"), st').
Proof.
  intros Hg. unfold detect_model_backend, bind, ret. rewrite Hg.
  destruct (list_in m models); simpl; auto.
  destruct (list_in (base_name m) models); auto.
Qed.

End Catalog.

(** ** Claims about the catalog *)

(** C3, as the code has it.  Selection under Auto answers "local" exactly
    when the model identifier or its base name is in the list that the
    catalog lookup returns.  When the cache serves the lookup, or the
    refresh succeeds, that list is the key set of the cache, so the answer
    is "local" iff the identifier or its base name is a key of the cache,
    and "cloud" otherwise.  When the refresh fails the list is empty and the
    answer is "cloud", while the cache stays as it was. *)
Theorem selection_follows_lookup (E : environment) (m : string) (st : state) :
  let '(answer, st') := detect_model_backend E m st in
  if lookup_answers E st
  then answer
       = Return (if dict_contains m (ollama_models_cache st')
                    || dict_contains (base_name m) (ollama_models_cache st')
                 then "local" else "cloud")
  else answer = Return "cloud"
       /\ ollama_models_cache st' = ollama_models_cache st.
Proof.
  unfold lookup_answers.
  destruct (served_from_cache E st) eqn:Hs; simpl.
  - rewrite (detect_after_lookup E m st _ _ (lookup_served E st Hs)).
    reflexivity.
  - destruct (listed (api_tags E (trace st))) as [l|] eqn:Hl.
    + destruct (lookup_refreshed E st l Hs Hl) as (st' & Hg & Hc & _).
      rewrite (detect_after_lookup E m st _ _ Hg).
      unfold dict_contains. now rewrite Hc.
    + destruct (lookup_failed E st Hs Hl) as (st' & Hg & Hc & _).
      rewrite (detect_after_lookup E m st _ _ Hg). auto.
Qed.

(** C3, as the specification states it, fails.  The local runtime lists
    llama3 and the proxy caches it; 61 seconds later the runtime is down.
    The refresh fails, the cache still has the key "llama3", and selection
    under Auto answers "cloud" for llama3. *)
Lemma stale_catalog_selects_cloud :
  let st := snd (get_ollama_models outage startup) in
  let '(answer, st') := detect_model_backend outage "llama3" st in
  answer = Return "cloud"
  /\ dict_contains "llama3" (ollama_models_cache st) = true
  /\ dict_contains "llama3" (ollama_models_cache st') = true
  /\ ~ selects_by_cache_membership outage st "llama3".
Proof.
  vm_compute. repeat split; intros H; discriminate H.
Qed.

(** C9.  When a lookup refreshes the catalog and the refresh fails (the
    call raises, the status is not 200, or the body cannot be decoded), the
    cache and its timestamp are what they were before; the lookup has made
    its call and answers the empty list. *)
Theorem failed_refresh_keeps_cache (E : environment) (st : state) :
  served_from_cache E st = false ->
  refresh_fails (api_tags E (trace st)) ->
  exists st',
    get_ollama_models E st = (Return [], st')
    /\ ollama_models_cache st' = ollama_models_cache st
    /\ ollama_cache_timestamp st' = ollama_cache_timestamp st
    /\ trace st' = (trace st ++ [Sent GET_api_tags])%list.
Proof.
  intros Hs Hf. apply lookup_failed; auto using refresh_fails_listed.
Qed.

Lemma failed_refresh_keeps_cache_witness :
  let st := snd (get_ollama_models outage startup) in
  dict_keys (ollama_models_cache st) = ["llama3"; "llama3:latest"]
  /\ exists st',
       get_ollama_models outage st = (Return [], st')
       /\ ollama_models_cache st' = ollama_models_cache st
       /\ ollama_cache_timestamp st' = ollama_cache_timestamp st
       /\ trace st' = (trace st ++ [Sent GET_api_tags])%list.
Proof.
  split.
  - reflexivity.
  - apply (failed_refresh_keeps_cache outage
             (snd (get_ollama_models outage startup))).
    + reflexivity.
    + simpl. left. discriminate.
Defined.

(** C10.  A lookup that finds the cache empty calls the model-listing
    endpoint, once, whatever the timestamp and the clock say.  A successful
    refresh that lists no model leaves the cache empty, so the lookup after
    it calls the endpoint again. *)
Theorem empty_cache_always_refreshes (E : environment) (st : state) :
  dict_bool (ollama_models_cache st) = false ->
  let st1 := snd (get_ollama_models E st) in
  calls (trace st1) = (calls (trace st) ++ [GET_api_tags])%list
  /\ (listed (api_tags E (trace st)) = Some [] ->
      calls (trace (snd (get_ollama_models E st1)))
      = (calls (trace st1) ++ [GET_api_tags])%list).
Proof.
  assert (Hcall : forall s, dict_bool (ollama_models_cache s) = false ->
            calls (trace (snd (get_ollama_models E s)))
            = (calls (trace s) ++ [GET_api_tags])%list).
  { intros s He.
    assert (Hs : served_from_cache E s = false).
    { unfold served_from_cache. rewrite He.
      destruct (ollama_cache_timestamp s); auto using andb_false_r. }
    destruct (listed (api_tags E (trace s))) as [l|] eqn:Hl.
    - destruct (lookup_refreshed E s l Hs Hl) as (s' & Hg & _ & _ & Ht).
      rewrite Hg. simpl. now rewrite Ht, calls_app.
    - destruct (lookup_failed E s Hs Hl) as (s' & Hg & _ & _ & Ht).
      rewrite Hg. simpl. now rewrite Ht, calls_app. }
  intros He. simpl. split; [now apply Hcall|].
  intros Hl. apply Hcall.
  assert (Hs : served_from_cache E st = false).
  { unfold served_from_cache. rewrite He.
    destruct (ollama_cache_timestamp st); auto using andb_false_r. }
  destruct (lookup_refreshed E st [] Hs Hl) as (s' & Hg & Hc & _).
  rewrite Hg. simpl. now rewrite Hc.
Qed.

Lemma empty_cache_always_refreshes_witness :
  let st := snd (get_ollama_models bare startup) in
  (ollama_models_cache st = []
   /\ ollama_cache_timestamp st = Some (clock bare st))
  /\ calls (trace (snd (get_ollama_models bare st)))
     = [GET_api_tags; GET_api_tags].
Proof.
  split.
  - split; reflexivity.
  - exact (proj1 (empty_cache_always_refreshes bare
                    (snd (get_ollama_models bare startup)) eq_refl)).
Defined.

(** A refresh that succeeds and lists no model leaves the cache empty,
    whatever it held. *)
Lemma empty_listing_empties_cache (E : environment) (st : state) :
  served_from_cache E st = false ->
  listed (api_tags E (trace st)) = Some [] ->
  ollama_models_cache (snd (get_ollama_models E st)) = []
  /\ ollama_cache_timestamp (snd (get_ollama_models E st)) <> None.
Proof.
  intros Hs Hl.
  destruct (lookup_refreshed E st [] Hs Hl) as (s' & Hg & Hc & Ht & _).
  rewrite Hg. simpl. auto.
Qed.

(** The time-to-live keeps a lookup from calling the endpoint only when the
    cache is not empty (and is younger than the time-to-live). *)
Lemma suppressed_only_when_nonempty (E : environment) (st : state) :
  calls (trace (snd (get_ollama_models E st))) = calls (trace st) ->
  dict_bool (ollama_models_cache st) = true
  /\ exists t, ollama_cache_timestamp st = Some t
              /\ clock E st - t < microseconds OLLAMA_CACHE_TTL.
Proof.
  intros Hc.
  destruct (served_from_cache E st) eqn:Hs.
  - unfold served_from_cache in Hs.
    destruct (ollama_cache_timestamp st) as [t|]; [|discriminate].
    apply andb_true_iff in Hs. destruct Hs as [Ha Hb].
    split; auto. exists t. split; auto. now apply Z.ltb_lt.
  - exfalso.
    assert (Hn : forall (l : list call) c, l <> (l ++ [c])%list).
    { intros l c H. apply (f_equal (@length call)) in H.
      rewrite length_app in H. simpl in H. lia. }
    destruct (listed (api_tags E (trace st))) as [l|] eqn:Hl.
    + destruct (lookup_refreshed E st l Hs Hl) as (s' & Hg & _ & _ & Ht).
      rewrite Hg in Hc. simpl in Hc. rewrite Ht, calls_app in Hc.
      simpl in Hc. symmetry in Hc. now apply Hn in Hc.
    + destruct (lookup_failed E st Hs Hl) as (s' & Hg & _ & _ & Ht).
      rewrite Hg in Hc. simpl in Hc. rewrite Ht, calls_app in Hc.
      simpl in Hc. symmetry in Hc. now apply Hn in Hc.
Qed.

(** ** Claims about the translator *)

(** C7.  The request sent to the local runtime carries "temperature",
    "num_predict" and "top_p" in its options exactly when the chat request
    has [temperature], [max_tokens] and [top_p], with their values; the
    options hold no other key, and the request has no options object when
    none of the three is set. *)
Theorem sampling_options_iff_present (chat_request : ChatRequest) :
  let request_data := transform_ollama_request chat_request in
  option_of request_data "temperature"
  = option_map OptFloat (temperature chat_request)
  /\ option_of request_data "num_predict"
     = option_map OptInt (max_tokens chat_request)
  /\ option_of request_data "top_p"
     = option_map OptFloat (top_p chat_request)
  /\ (forall key,
        key <> "temperature" -> key <> "num_predict" -> key <> "top_p" ->
        option_of request_data key = None)
  /\ (oreq_options request_data = None <->
      temperature chat_request = None
      /\ max_tokens chat_request = None
      /\ top_p chat_request = None).
Proof.
  unfold transform_ollama_request, option_of, set_option.
  destruct (temperature chat_request) as [t|],
           (max_tokens chat_request) as [n|],
           (top_p chat_request) as [p|]; simpl;
    repeat split; intros;
    repeat match goal with
           | H : _ /\ _ |- _ => destruct H
           | |- context [String.eqb ?a ?b] =>
               destruct (String.eqb_spec a b); [congruence|]
           end;
    congruence.
Qed.

(** A body that names no temperature is validated into a request that has
    one, the declared default, and the translation sends it. *)
Lemma default_temperature_is_sent m msgs :
  option_of (transform_ollama_request (ChatRequest_defaults m msgs))
            "temperature"
  = Some (OptFloat 0x1.6666666666666p-1%float).
Proof. reflexivity. Qed.

(** The translation strips the tag, keeps the messages and the streaming
    flag. *)
Lemma transform_ollama_request_rest (chat_request : ChatRequest) :
  let request_data := transform_ollama_request chat_request in
  oreq_model request_data = base_name (model chat_request)
  /\ oreq_messages request_data = messages chat_request
  /\ oreq_stream request_data = stream chat_request.
Proof.
  unfold transform_ollama_request, set_option.
  destruct (temperature chat_request), (max_tokens chat_request),
           (top_p chat_request); simpl; auto.
Qed.

(** ** Streaming relay *)

Section Relay.

Variable E : environment.
Variables response_id model_name : string.

Local Abbreviation loop := (relay E response_id model_name).

(** One turn of the loop on a line that parses. *)
Lemma relay_parsed full_content data rest st :
  loop full_content (Parsed data :: rest) st
  = let content_delta := delta_for full_content data in
    let done := get (oo_done data) false in
    let yields := str_bool content_delta || done in
    let first :=
      if yields
      then [content_event E response_id model_name st content_delta done]
      else [] in
    let st1 := if yields then tick st else st in
    if done then
      ((first ++ [usage_event E response_id model_name st1 data; sse_DONE])%list,
       Completed, tick st1)
    else
      let '(later, ending, st2) :=
        loop (next_content full_content data) rest st1 in
      ((first ++ later)%list, ending, st2).
Proof.
  unfold loop, delta_for, next_content, text_of, content_event, usage_event,
    totals.
  simpl.
  destruct (oo_message data) as [message|];
    [destruct (om_content message) as [new_content|]|];
    simpl;
    repeat match goal with
           | |- context [str_bool ?x || ?y] => destruct (str_bool x || y) eqn:?
           | |- context [get (oo_done data) false] =>
               destruct (get (oo_done data) false) eqn:?
           end; simpl in *; try reflexivity; try discriminate.
Qed.

(** A stream whose backend signals completion: the relay yields plain
    events, then the usage totals of the event that has [done] set, then
    the termination marker, and stops there. *)
Lemma relay_completes lines : forall full_content st,
  signals_done lines = true ->
  exists pre data st1 st2,
    loop full_content lines st
    = ((pre ++ [usage_event E response_id model_name st1 data; sse_DONE])%list,
       Completed, st2)
    /\ Forall plain pre
    /\ In (Parsed data) lines
    /\ get (oo_done data) false = true.
Proof.
  induction lines as [|line rest IH]; intros full_content st Hd;
    [discriminate|].
  destruct line as [|raw|data|]; simpl in Hd; try discriminate.
  - destruct (IH full_content st Hd) as (pre & d & st1 & st2 & Hr & Hp & Hi & Hdone).
    exists pre, d, st1, st2. simpl. auto.
  - destruct (IH full_content st Hd) as (pre & d & st1 & st2 & Hr & Hp & Hi & Hdone).
    exists pre, d, st1, st2. simpl. auto.
  - rewrite relay_parsed. cbv zeta.
    destruct (get (oo_done data) false) eqn:Hdone.
    + rewrite orb_true_r. do 4 eexists. split; [reflexivity|].
      repeat split; simpl; auto. repeat constructor.
    + simpl in Hd.
      set (st1 := if str_bool _ || false then tick st else st).
      destruct (IH (next_content full_content data) st1 Hd)
        as (pre & d & sa & sb & Hr & Hp & Hi & Hdd).
      rewrite Hr.
      eexists (_ ++ pre)%list, d, sa, sb.
      rewrite <- app_assoc. split; [reflexivity|].
      repeat split; simpl; auto.
      apply Forall_app. split; auto.
      destruct (str_bool _ || false); repeat constructor.
Qed.

(** A stream whose backend never signals completion: only plain events,
    and the relay does not end by its [break]. *)
Lemma relay_incomplete lines : forall full_content st,
  signals_done lines = false ->
  exists out ending st',
    loop full_content lines st = (out, ending, st')
    /\ Forall plain out /\ ending <> Completed.
Proof.
  induction lines as [|line rest IH]; intros full_content st Hd.
  - do 3 eexists. split; [reflexivity|]. split; [constructor|discriminate].
  - destruct line as [|raw|data|]; simpl in Hd.
    + apply IH; auto.
    + apply IH; auto.
    + apply orb_false_iff in Hd. destruct Hd as [Hdone Hd].
      rewrite relay_parsed. cbv zeta. rewrite Hdone.
      set (st1 := if str_bool _ || false then tick st else st).
      destruct (IH (next_content full_content data) st1 Hd)
        as (out & ending & st' & Hr & Hp & He).
      rewrite Hr. do 3 eexists. split; [reflexivity|]. split; auto.
      apply Forall_app. split; auto.
      destruct (str_bool _ || false); repeat constructor.
    + do 3 eexists. split; [reflexivity|]. split; [constructor|discriminate].
Qed.

(** Empty lines and lines that are not JSON leave no trace in the run. *)
Lemma relay_skips before : forall rest full_content st,
  readable before = true ->
  loop full_content (before ++ rest) st
  = loop full_content (map Parsed (events_of before) ++ rest) st.
Proof.
  induction before as [|line before IH]; intros rest full_content st Hr.
  - reflexivity.
  - destruct line as [|raw|data|]; simpl in Hr; try discriminate.
    + simpl. now apply IH.
    + simpl. now apply IH.
    + simpl events_of. simpl map. simpl app. rewrite !relay_parsed. cbv zeta.
      destruct (get (oo_done data) false); [reflexivity|].
      now rewrite IH.
Qed.

(** The first line that has [done] set, when the lines before it can all
    be read: the relay yields plain events, then the usage totals of that
    very line, then the termination marker, and reads nothing after it. *)
Lemma relay_first_done before last rest : forall full_content st,
  readable before = true ->
  Forall (fun data => get (oo_done data) false = false) (events_of before) ->
  get (oo_done last) false = true ->
  exists pre st1 st2,
    loop full_content (before ++ Parsed last :: rest) st
    = ((pre ++ [usage_event E response_id model_name st1 last; sse_DONE])%list,
       Completed, st2)
    /\ Forall plain pre.
Proof.
  induction before as [|line before IH]; intros full_content st Hr Hn Hdone.
  - simpl app. rewrite relay_parsed. cbv zeta. rewrite Hdone, orb_true_r.
    do 3 eexists. split; [reflexivity|]. repeat constructor.
  - destruct line as [|raw|data|]; simpl in Hr, Hn; try discriminate.
    + simpl. now apply IH.
    + simpl. now apply IH.
    + inversion Hn as [|? ? Hd Hn']; subst.
      simpl app. rewrite relay_parsed. cbv zeta. rewrite Hd.
      set (st1 := if str_bool _ || false then tick st else st).
      destruct (IH (next_content full_content data) st1 Hr Hn' Hdone)
        as (pre & sa & sb & Hl & Hp).
      rewrite Hl. eexists (_ ++ pre)%list, sa, sb.
      rewrite <- app_assoc. split; [reflexivity|].
      apply Forall_app. split; auto.
      destruct (str_bool _ || false); repeat constructor.
Qed.

(** Where a usage object in the output comes from: a line of the stream
    that has [done] set. *)
Lemma relay_usage_origin lines full_content st c u :
  In (sse_data c) (fst (fst (loop full_content lines st))) ->
  ck_usage c = Some u ->
  exists data,
    In (Parsed data) lines /\ get (oo_done data) false = true
    /\ u = totals data.
Proof.
  intros Hin Hu.
  destruct (signals_done lines) eqn:Hd.
  - destruct (relay_completes lines full_content st Hd)
      as (pre & data & st1 & st2 & Hr & Hp & Hi & Hdone).
    rewrite Hr in Hin. simpl in Hin. apply in_app_or in Hin.
    destruct Hin as [Hin|[Hin|[Hin|[]]]].
    + rewrite Forall_forall in Hp. apply Hp in Hin. simpl in Hin. congruence.
    + exists data. split; [|split]; auto.
      injection Hin as <-. simpl in Hu. congruence.
    + discriminate.
  - destruct (relay_incomplete lines full_content st Hd)
      as (out & ending & st' & Hr & Hp & _).
    rewrite Hr in Hin. simpl in Hin.
    rewrite Forall_forall in Hp. apply Hp in Hin. simpl in Hin. congruence.
Qed.

(** Events that carry cumulative text and do not signal completion: the
    relay yields their non-empty fragments as deltas, and goes on with the
    whole text in [full_content]. *)
Lemma relay_cumulative fragments : forall events so_far st,
  cumulative so_far fragments events ->
  Forall (fun data => get (oo_done data) false = false) events ->
  exists out st1,
    Forall plain out
    /\ deltas out = filter str_bool fragments
    /\ forall rest,
         loop so_far (map Parsed events ++ rest) st
         = let '(later, ending, st2) :=
             loop (so_far ++ join fragments) rest st1 in
           ((out ++ later)%list, ending, st2).
Proof.
  induction fragments as [|d fragments IH]; intros events so_far st Hc Hn;
    destruct events as [|data events]; simpl in Hc; try contradiction.
  - exists [], st. repeat split; auto. intros rest. simpl.
    rewrite append_empty_r. now destruct (loop so_far rest st) as [[? ?] ?].
  - destruct Hc as [Ht Hc]. inversion Hn as [|? ? Hdone Hn']; subst.
    set (st1 := if str_bool d then tick st else st).
    destruct (IH events (so_far ++ d)%string st1 Hc Hn')
      as (out & st2 & Hp & Hdl & Hr).
    exists ((if str_bool d
             then [content_event E response_id model_name st d false]
             else []) ++ out)%list, st2.
    split; [|split].
    + apply Forall_app. split; auto. destruct (str_bool d); repeat constructor.
    + unfold deltas in *. rewrite flat_map_app, Hdl. simpl.
      destruct (str_bool d) eqn:Hd; simpl; rewrite ?Hd; reflexivity.
    + intros rest. simpl map. simpl app. rewrite relay_parsed. cbv zeta.
      unfold delta_for, next_content. rewrite Ht, Hdone, slice_from_app.
      rewrite orb_false_r. fold st1. rewrite Hr.
      simpl join. rewrite append_assoc.
      destruct (loop _ rest st2) as [[later ending] st3].
      now rewrite <- app_assoc.
Qed.

End Relay.

(** The generator, once the local runtime has answered 200: the loop, run
    under a fresh identifier. *)
Lemma handle_ollama_stream_opened E chat_request st text lines :
  api_chat_stream E (trace st) (transform_ollama_request chat_request)
  = StreamResponse 200 text lines ->
  exists response_id st1,
    handle_ollama_stream E chat_request st
    = relay E response_id (model chat_request) "" lines st1.
Proof.
  intros Ha. unfold handle_ollama_stream. simpl. rewrite Ha. simpl. eauto.
Qed.

(** All that the generator yields comes out of the loop, run on the lines
    of a 200 answer. *)
Lemma handle_ollama_stream_yields E chat_request st :
  fst (fst (handle_ollama_stream E chat_request st)) = []
  \/ exists text lines response_id st1,
       api_chat_stream E (trace st) (transform_ollama_request chat_request)
       = StreamResponse 200 text lines
       /\ handle_ollama_stream E chat_request st
          = relay E response_id (model chat_request) "" lines st1.
Proof.
  unfold handle_ollama_stream. simpl.
  destruct (api_chat_stream E (trace st) (transform_ollama_request chat_request))
    as [|status_code text lines]; simpl; auto.
  destruct (status_code =? 200) eqn:Hs; simpl; auto.
  apply Z.eqb_eq in Hs. subst status_code.
  right. do 4 eexists. split; reflexivity.
Qed.

(** ** Claims about responses and streams *)

(** C4.  The response built from an answer of the local runtime is always
    built, and its usage has [prompt_tokens] and [completion_tokens] equal
    to the runtime's counters, 0 for a counter the answer omits, and
    [total_tokens] equal to their sum.  The same holds of the terminal
    usage event of a stream: when the local runtime answers 200 and [last]
    is the first line it streams that has [done] set, the lines before it
    being read, the relay ends with one event that carries usage, followed
    by the termination marker, and that usage has the counters of [last],
    0 for a counter that [last] omits, and their sum as total.  No event
    the relay yields carries any other usage: a usage it yields is built
    this way from a line of a 200 answer that has [done] set. *)
Theorem total_tokens_is_the_sum :
  (forall E ollama_response model_name st,
     exists response st',
       transform_ollama_response E ollama_response model_name st
       = (Return response, st')
       /\ cmpl_usage response
          = Some {| prompt_tokens :=
                      Some (get (oo_prompt_eval_count ollama_response) 0);
                    completion_tokens :=
                      Some (get (oo_eval_count ollama_response) 0);
                    total_tokens :=
                      Some (get (oo_prompt_eval_count ollama_response) 0
                            + get (oo_eval_count ollama_response) 0) |})
  /\ (forall E chat_request st text before last rest,
        api_chat_stream E (trace st) (transform_ollama_request chat_request)
        = StreamResponse 200 text (before ++ Parsed last :: rest) ->
        readable before = true ->
        Forall (fun data => get (oo_done data) false = false)
               (events_of before) ->
        get (oo_done last) false = true ->
        exists pre c st',
          handle_ollama_stream E chat_request st
          = ((pre ++ [sse_data c; sse_DONE])%list, Completed, st')
          /\ Forall plain pre
          /\ ck_usage c
             = Some {| prompt_tokens :=
                         Some (get (oo_prompt_eval_count last) 0);
                       completion_tokens := Some (get (oo_eval_count last) 0);
                       total_tokens :=
                         Some (get (oo_prompt_eval_count last) 0
                               + get (oo_eval_count last) 0) |})
  /\ (forall E chat_request st c u,
        In (sse_data c) (fst (fst (handle_ollama_stream E chat_request st))) ->
        ck_usage c = Some u ->
        exists text lines data,
          api_chat_stream E (trace st) (transform_ollama_request chat_request)
          = StreamResponse 200 text lines
          /\ In (Parsed data) lines
          /\ get (oo_done data) false = true
          /\ u = {| prompt_tokens := Some (get (oo_prompt_eval_count data) 0);
                    completion_tokens := Some (get (oo_eval_count data) 0);
                    total_tokens :=
                      Some (get (oo_prompt_eval_count data) 0
                            + get (oo_eval_count data) 0) |}).
Proof.
  split; [|split].
  - intros E o m st. unfold transform_ollama_response, new_response_id.
    run. eauto.
  - intros E chat_request st text before last rest Ha Hr Hn Hdone.
    destruct (handle_ollama_stream_opened E chat_request st text _ Ha)
      as (id & st1 & ->).
    destruct (relay_first_done E id (model chat_request) before last rest
                "" st1 Hr Hn Hdone) as (pre & sa & sb & -> & Hp).
    eexists pre, _, sb. split; [reflexivity|]. split; [exact Hp|reflexivity].
  - intros E chat_request st c u Hin Hu.
    destruct (handle_ollama_stream_yields E chat_request st)
      as [Hnil | (text & lines & id & st1 & Ha & Hr)].
    + rewrite Hnil in Hin. contradiction.
    + rewrite Hr in Hin.
      destruct (relay_usage_origin E id (model chat_request) lines "" st1 c u
                  Hin Hu) as (data & Hi & Hdone & ->).
      exists text, lines, data. repeat split; assumption.
Qed.

(** The stream that omits a counter: the terminal event counts 12 prompt
    tokens, no completion token, 12 in all; and so does the response built
    from the same object when it is the whole answer. *)
Lemma total_tokens_is_the_sum_witness :
  (exists response st',
     transform_ollama_response terse uncounted "llama3" startup
     = (Return response, st')
     /\ cmpl_usage response
        = Some {| prompt_tokens := Some 12; completion_tokens := Some 0;
                  total_tokens := Some 12 |})
  /\ (exists pre c st',
        handle_ollama_stream terse (ask "llama3" true) startup
        = ((pre ++ [sse_data c; sse_DONE])%list, Completed, st')
        /\ Forall plain pre
        /\ ck_usage c
           = Some {| prompt_tokens := Some 12; completion_tokens := Some 0;
                     total_tokens := Some 12 |}).
Proof.
  split.
  - exact (proj1 total_tokens_is_the_sum terse uncounted "llama3" startup).
  - apply (proj1 (proj2 total_tokens_is_the_sum) terse (ask "llama3" true)
             startup "" [Parsed (says "Hi" false); Blank] uncounted
             [Parsed (says "Hi again" true)]).
    + reflexivity.
    + reflexivity.
    + repeat constructor.
    + reflexivity.
Defined.



(** What the relay yields for that stream, in full. *)
Lemma hi_there_in_full :
  let event created content_delta finish_reason usage :=
    sse_data
      {| ck_id := "chatcmpl-0123456789abcdef0123456789abc";
         ck_object := "chat.completion.chunk";
         ck_created := created;
         ck_model := "llama3";
         ck_choices := [ {| cc_index := 0; cc_delta := content_delta;
                            cc_finish_reason := finish_reason |} ];
         ck_usage := usage |} in
  fst (handle_ollama_stream chatty (ask "llama3" true) startup)
  = ([ event 1700000000 (Some "Hi") None None;
       event 1700000001 (Some " there") None None;
       event 1700000002 (Some "!") (Some "stop") None;
       event 1700000003 None (Some "stop")
         (Some {| prompt_tokens := Some 12; completion_tokens := Some 3;
                  total_tokens := Some 15 |});
       sse_DONE ],
     Completed).
Proof. reflexivity. Qed.

(** C6.  When the local runtime answers 200 and one of the lines it streams
    has [done] set, the relay ends by yielding one event that carries the
    usage totals of that line, immediately followed by the termination
    marker; nothing it yields before carries usage or is a termination
    marker, and nothing follows. *)
Theorem completed_stream_ends_with_usage_and_marker (E : environment)
    (chat_request : ChatRequest) (st : state) (text : string)
    (lines : list stream_line) :
  api_chat_stream E (trace st) (transform_ollama_request chat_request)
  = StreamResponse 200 text lines ->
  signals_done lines = true ->
  exists pre u data st',
    handle_ollama_stream E chat_request st
    = ((pre ++ [sse_data u; sse_DONE])%list, Completed, st')
    /\ Forall plain pre
    /\ ck_usage u = Some (totals data)
    /\ In (Parsed data) lines
    /\ get (oo_done data) false = true.
Proof.
  intros Ha Hd.
  destruct (handle_ollama_stream_opened E chat_request st text lines Ha)
    as (id & st1 & ->).
  destruct (relay_completes E id (model chat_request) lines "" st1 Hd)
    as (pre & data & sa & sb & Hr & Hp & Hi & Hdone).
  rewrite Hr. eexists pre, _, data, sb. split; [reflexivity|]. auto.
Qed.

Lemma completed_stream_ends_with_usage_and_marker_witness :
  exists pre u data st',
    handle_ollama_stream chatty (ask "llama3" true) startup
    = ((pre ++ [sse_data u; sse_DONE])%list, Completed, st')
    /\ Forall plain pre
    /\ ck_usage u = Some (totals data)
    /\ In (Parsed data) hi_there
    /\ get (oo_done data) false = true.
Proof.
  apply (completed_stream_ends_with_usage_and_marker chatty
           (ask "llama3" true) startup "").
  - reflexivity.
  - reflexivity.
Defined.

(** X12.  A stream that ends without the backend signalling completion
    yields neither usage totals nor a termination marker. *)
Lemma unfinished_stream_has_no_terminal_event (E : environment)
    (chat_request : ChatRequest) (st : state) :
  (forall status_code text lines,
     api_chat_stream E (trace st) (transform_ollama_request chat_request)
     = StreamResponse status_code text lines ->
     signals_done lines = false) ->
  Forall plain (fst (fst (handle_ollama_stream E chat_request st)))
  /\ snd (fst (handle_ollama_stream E chat_request st)) <> Completed.
Proof.
  intros Hd.
  unfold handle_ollama_stream. simpl.
  destruct (api_chat_stream E (trace st) (transform_ollama_request chat_request))
    as [|status_code text lines] eqn:Ha; simpl.
  - split; [constructor|discriminate].
  - destruct (negb (status_code =? 200)); simpl.
    + split; [constructor|discriminate].
    + match goal with |- context [relay E ?i ?m ?f lines ?s] =>
        destruct (relay_incomplete E i m lines f s (Hd _ _ _ eq_refl))
          as (out & ending & st' & -> & Hp & He)
      end.
      auto.
Qed.

(** ** Completion orchestrator *)

Section Orchestrator.

Variable E : environment.

(** X22.  Selection under Auto never raises and never leaves "auto" in
    [selected_backend]: it answers "local" or "cloud", whatever the local
    runtime does. *)
Lemma detect_model_backend_range m st :
  fst (detect_model_backend E m st) = Return "local"
  \/ fst (detect_model_backend E m st) = Return "cloud".
Proof.
  destruct (get_ollama_models E st) as [[models|e] st'] eqn:Hg.
  - rewrite (detect_after_lookup E m st models st' Hg). simpl.
    destruct (list_in m models || list_in (base_name m) models); auto.
  - exfalso.
    destruct (served_from_cache E st) eqn:Hs.
    + rewrite (lookup_served E st Hs) in Hg. discriminate.
    + destruct (listed (api_tags E (trace st))) as [l|] eqn:Hl.
      * destruct (lookup_refreshed E st l Hs Hl) as (s' & Hg' & _).
        congruence.
      * destruct (lookup_failed E st Hs Hl) as (s' & Hg' & _). congruence.
Qed.

(** A failing call to the cloud provider, made for a [selected_backend]
    that is not "auto", is not caught. *)
Lemma dispatch_cloud_failure selected_backend chat_request st
    status_code text json :
  String.eqb selected_backend "local" = false ->
  String.eqb selected_backend "auto" = false ->
  api_key_set E = true ->
  chat_completions_upstream E (trace st) chat_request
  = Response status_code text json ->
  status_code <> 200 ->
  dispatch E selected_backend chat_request st
  = (Raise (HTTPException status_code text),
     snd (emit (Sent (POST_chat_completions chat_request)) st)).
Proof.
  intros Hl Ha Hk Hu Hc.
  unfold dispatch, handle_openrouter_request. rewrite Hl, Hk. simpl.
  run. rewrite Hu. simpl.
  destruct (Z.eqb_spec status_code 200); [contradiction|]. simpl.
  now rewrite Ha.
Qed.

(** *** No request takes a fallback

    The rules below follow the trace through the monad.  With them, every
    path of [chat_completions] is seen to leave the fallback to the local
    runtime unrecorded, because [selected_backend] is never "auto" once
    selection is over; and to leave the fallback to the cloud provider
    unrecorded as well when the backend named is one of "auto", "local"
    and "cloud", because [selected_backend] is then "local" or "cloud". *)

Section Avoiding.

Variable bad : event -> Prop.

Lemma av_ret {A} (P : A -> Prop) a : P a -> avoids bad P (ret a).
Proof.
  intros Hp st. exists []. simpl. rewrite app_nil_r.
  repeat split; auto. intros b [= <-]. exact Hp.
Qed.

Lemma av_raise {A} (P : A -> Prop) e : avoids bad P (raise e).
Proof.
  intros st. exists []. simpl. rewrite app_nil_r.
  repeat split; auto. discriminate.
Qed.

Lemma av_bind {A B} (Q : A -> Prop) (P : B -> Prop) (c : M A) (k : A -> M B) :
  avoids bad Q c ->
  (forall a, Q a -> avoids bad P (k a)) ->
  avoids bad P (bind c k).
Proof.
  intros Hc Hk st. unfold bind.
  destruct (Hc st) as (n1 & Ht1 & Hn1 & Hq).
  destruct (c st) as [[a|e] st1]; simpl in *.
  - destruct (Hk a (Hq a eq_refl) st1) as (n2 & Ht2 & Hn2 & Hp).
    exists (n1 ++ n2)%list. rewrite Ht2, Ht1, app_assoc.
    repeat split; auto. intros e H. apply in_app_or in H. destruct H; auto.
  - exists n1. repeat split; auto. discriminate.
Qed.

Lemma av_try_except {A} (P : A -> Prop) (c : M A) handler :
  avoids bad P c ->
  (forall e h, handler e = Some h -> avoids bad P h) ->
  avoids bad P (try_except c handler).
Proof.
  intros Hc Hh st. unfold try_except.
  destruct (Hc st) as (n1 & Ht1 & Hn1 & Hp).
  destruct (c st) as [[a|e] st1]; simpl in *.
  - exists n1. repeat split; auto.
  - destruct (handler e) as [h|] eqn:He.
    + destruct (Hh e h He st1) as (n2 & Ht2 & Hn2 & Hp2).
      exists (n1 ++ n2)%list. rewrite Ht2, Ht1, app_assoc.
      repeat split; auto. intros e' H. apply in_app_or in H. destruct H; auto.
    + exists n1. repeat split; auto.
Qed.

Lemma av_emit e : ~ bad e -> avoids bad (fun _ => True) (emit e).
Proof.
  intros He st. exists [e]. simpl. repeat split; auto.
  intros e' [<-|[]]. exact He.
Qed.

Lemma av_silent {A} (c : M A) :
  (forall st, trace (snd (c st)) = trace st) ->
  avoids bad (fun _ => True) c.
Proof.
  intros Hc st. exists []. rewrite app_nil_r. repeat split; auto.
Qed.

(** From here on the events to avoid are fallbacks, of either kind. *)
Hypothesis bad_fallback :
  forall e, bad e -> e = fallback_to_local \/ e = fallback_to_cloud.

Lemma other_events e :
  e <> fallback_to_local -> e <> fallback_to_cloud -> ~ bad e.
Proof. intros H1 H2 Hb. destruct (bad_fallback e Hb); contradiction. Qed.

Ltac av_step :=
  first
    [ apply av_raise
    | apply av_ret; solve [auto]
    | apply av_emit; apply other_events; discriminate
    | apply av_silent; reflexivity
    | eapply av_bind with (Q := fun _ => True); [|intros ? _] ].

Lemma av_send {B} c (answer : list event -> http_result B) :
  avoids bad (fun _ => True) (send c answer).
Proof.
  unfold send. av_step; [av_step|]. av_step; [av_step|].
  destruct (answer a); av_step.
Qed.

Lemma av_response_json {B} (json : option B) :
  avoids bad (fun _ => True) (response_json json).
Proof. destruct json; av_step. Qed.

Lemma av_counter_inc m amount :
  (forall a, m a <> FALLBACK_COUNT "cloud" "local") ->
  (forall a, m a <> FALLBACK_COUNT "local" "cloud") ->
  avoids bad (fun _ => True) (counter_inc m amount).
Proof.
  intros H1 H2. unfold counter_inc.
  destruct (amount <? 0); [av_step|].
  apply av_emit, other_events; unfold fallback_to_local, fallback_to_cloud;
    intros [= H]; [now apply (H1 amount)|now apply (H2 amount)].
Qed.

Lemma av_get_ollama_models :
  avoids bad (fun _ => True) (get_ollama_models E).
Proof.
  unfold get_ollama_models.
  av_step; [av_step|]. eapply av_bind with (Q := fun _ => True).
  - destruct a; [|av_step]. repeat av_step.
    match goal with |- context [if ?b then _ else _] => destruct b end;
      av_step.
  - intros [keys|] _; [av_step|].
    apply av_try_except.
    + av_step; [apply av_send|]. destruct a0 as [[status_code text] json].
      destruct (status_code =? 200); [|av_step].
      av_step; [apply av_response_json|]. repeat av_step.
    + intros e h [= <-]. av_step.
Qed.

Lemma av_detect_model_backend m :
  avoids bad (fun s => s = "local" \/ s = "cloud") (detect_model_backend E m).
Proof.
  unfold detect_model_backend.
  eapply av_bind; [apply av_get_ollama_models|]. intros models _.
  destruct (list_in m models); [av_step|].
  destruct (list_in (base_name m) models); av_step.
Qed.

Lemma av_handle_ollama_request chat_request :
  avoids bad (fun _ => True) (handle_ollama_request E chat_request).
Proof.
  unfold handle_ollama_request, transform_ollama_response.
  av_step; [apply av_send|]. destruct a as [[status_code text] json].
  destruct (negb (status_code =? 200)); [av_step|].
  av_step; [apply av_response_json|]. repeat av_step.
Qed.

Lemma av_handle_openrouter_request chat_request :
  avoids bad (fun _ => True) (handle_openrouter_request E chat_request).
Proof.
  unfold handle_openrouter_request.
  destruct (negb (api_key_set E)); [av_step|].
  av_step; [apply av_send|]. destruct a as [[status_code text] json].
  destruct (negb (status_code =? 200)); [av_step|apply av_response_json].
Qed.

(** The backend call records a fallback to the local runtime only when
    [selected_backend] is "auto", and one to the cloud provider only when
    it is neither "local" nor "cloud". *)
Lemma av_dispatch selected_backend chat_request :
  String.eqb selected_backend "auto" = false \/ ~ bad fallback_to_local ->
  String.eqb selected_backend "local" || String.eqb selected_backend "cloud"
  = true \/ ~ bad fallback_to_cloud ->
  avoids bad (fun _ => True) (dispatch E selected_backend chat_request).
Proof.
  intros Hl Hc. unfold dispatch.
  destruct (String.eqb selected_backend "local") eqn:Hlocal.
  - av_step; [apply av_handle_ollama_request|av_step].
  - destruct (negb (api_key_set E)).
    + destruct (String.eqb selected_backend "cloud") eqn:Hcloud; [av_step|].
      destruct Hc as [Hc|Hc]; [discriminate|].
      av_step; [now apply av_emit|av_step].
    + apply av_try_except.
      * av_step; [apply av_handle_openrouter_request|av_step].
      * intros [status_code detail|what] h [= <-].
        destruct (String.eqb selected_backend "auto") eqn:Hauto; [|av_step].
        destruct Hl as [Hl|Hl]; [discriminate|].
        av_step; [now apply av_emit|].
        av_step; [apply av_handle_ollama_request|av_step].
Qed.

Lemma av_on_error selected_backend chat_request A e h :
  on_error selected_backend chat_request A e = Some h ->
  avoids bad (fun _ => True) h.
Proof.
  destruct e; simpl; [discriminate|]. intros [= <-]. repeat av_step.
Qed.

Lemma av_record_metrics request_start selected_backend chat_request
    response_data :
  avoids bad (fun _ => True)
    (record_metrics E request_start selected_backend chat_request
                    response_data).
Proof.
  unfold record_metrics. repeat av_step.
  destruct (cmpl_usage response_data) as [u|]; [|av_step].
  av_step.
  - destruct (prompt_tokens u); [|av_step].
    apply av_counter_inc; discriminate.
  - destruct (completion_tokens u); [|av_step].
    apply av_counter_inc; discriminate.
Qed.

Lemma av_chat_completions chat_request backend :
  well_named (named_backend E backend) = true \/ ~ bad fallback_to_cloud ->
  avoids bad (fun _ => True) (chat_completions E chat_request backend).
Proof.
  intros Hn. unfold chat_completions. fold (named_backend E backend).
  av_step; [av_step|].
  eapply av_bind with
    (Q := fun s => String.eqb s "auto" = false
                   /\ (String.eqb s "local" || String.eqb s "cloud" = true
                       \/ ~ bad fallback_to_cloud)).
  - destruct (String.eqb (named_backend E backend) "auto") eqn:Hc.
    + eapply av_bind; [apply av_detect_model_backend|].
      intros s [-> | ->]; (av_step; [av_step|]); apply av_ret; auto.
    + av_step; [av_step|]. apply av_ret. split; auto.
      destruct Hn as [Hn|Hn]; auto. left.
      unfold well_named in Hn. now rewrite Hc in Hn.
  - intros selected_backend [Hna Hlc].
    destruct (get (stream chat_request) false).
    + destruct (String.eqb selected_backend "local"); [av_step|].
      destruct (negb (api_key_set E)); [av_step|].
      av_step; [apply av_send|]. destruct a0 as [[status_code text] json].
      destruct (negb (status_code =? 200)); av_step.
    + av_step.
      * apply av_try_except; [apply av_dispatch; auto|].
        intros e h. apply av_on_error.
      * destruct a0 as [response_data selected].
        apply av_try_except.
        -- av_step; [apply av_record_metrics|av_step].
        -- intros e h. apply av_on_error.
Qed.

End Avoiding.

(** Whatever the request, the override and the world, [chat_completions]
    does not record a fallback from the cloud provider to the local
    runtime. *)
Lemma chat_completions_never_falls_back chat_request backend :
  avoids (fun e => e = fallback_to_local) (fun _ => True)
         (chat_completions E chat_request backend).
Proof.
  apply av_chat_completions; [auto|]. right. discriminate.
Qed.

(** A request whose backend is "auto", "local" or "cloud" records no
    fallback at all: not the one to the cloud provider either, which comes
    with the not-found error. *)
Lemma chat_completions_takes_no_fallback chat_request backend :
  well_named (named_backend E backend) = true ->
  avoids (fun e => e = fallback_to_local \/ e = fallback_to_cloud)
         (fun _ => True) (chat_completions E chat_request backend).
Proof.
  intros Hn. apply av_chat_completions; auto.
Qed.

(** What a non-streaming request under Auto comes to when selection
    answers "cloud", a credential is configured and the call to the cloud
    provider fails with a status: the status is raised, after one call,
    to the cloud provider. *)
Lemma auto_cloud_failure_is_surfaced chat_request st st1
    status_code text json :
  get (stream chat_request) false = false ->
  api_key_set E = true ->
  detect_model_backend E (model chat_request) (tick st)
  = (Return "cloud", st1) ->
  chat_completions_upstream E
    (trace st1 ++ [Observed (BACKEND_SELECTION "cloud" "auto")])%list
    chat_request
  = Response status_code text json ->
  status_code <> 200 ->
  exists st',
    chat_completions E chat_request (Some auto) st
    = (Raise (HTTPException status_code text), st')
    /\ trace st'
       = (trace st1 ++ [Observed (BACKEND_SELECTION "cloud" "auto");
                        Sent (POST_chat_completions chat_request)])%list.
Proof.
  intros Hs Hk Hd Hu Hc.
  unfold chat_completions. unfold bind at 1. unfold datetime_now.
  simpl backend_str. simpl String.eqb. cbv iota.
  unfold bind at 1. unfold bind at 1. rewrite Hd.
  unfold bind at 1. unfold emit at 1. unfold ret at 1.
  rewrite Hs. simpl String.eqb.
  unfold bind, try_except.
  rewrite dispatch_cloud_failure with (status_code := status_code)
    (text := text) (json := json); auto.
  simpl. eexists. split; [reflexivity|]. simpl.
  now rewrite <- app_assoc.
Qed.

(** What a non-streaming request under Auto comes to when selection
    answers "cloud" and no credential is configured: status 500. *)
Lemma auto_without_credential_is_500 chat_request st st1 :
  get (stream chat_request) false = false ->
  api_key_set E = false ->
  detect_model_backend E (model chat_request) (tick st)
  = (Return "cloud", st1) ->
  exists st',
    chat_completions E chat_request (Some auto) st
    = (Raise (HTTPException 500 "OpenRouter API key not configured"), st')
    /\ trace st'
       = (trace st1 ++ [Observed (BACKEND_SELECTION "cloud" "auto")])%list.
Proof.
  intros Hs Hk Hd.
  unfold chat_completions. unfold bind at 1. unfold datetime_now.
  simpl backend_str. simpl String.eqb. cbv iota.
  unfold bind at 1. unfold bind at 1. rewrite Hd.
  unfold bind at 1. unfold emit at 1. unfold ret at 1.
  rewrite Hs. simpl String.eqb.
  unfold bind, try_except, dispatch. rewrite Hk. simpl.
  eexists. split; reflexivity.
Qed.

End Orchestrator.

(** ** Claims about the orchestrator *)

(** C2.  A non-streaming request with the override "cloud", a credential
    being configured: when the cloud provider answers with a status other
    than 200, the request fails with that status and the provider's text,
    and the only call made is the one to the cloud provider; the local
    runtime is not called, for a chat or for its models. *)
Theorem explicit_cloud_failure_is_surfaced (E : environment)
    (chat_request : ChatRequest) (st : state)
    (status_code : Z) (text : string) (json : option completion) :
  get (stream chat_request) false = false ->
  api_key_set E = true ->
  chat_completions_upstream E
    (trace st ++ [Observed (BACKEND_SELECTION "cloud" "manual")])%list
    chat_request
  = Response status_code text json ->
  status_code <> 200 ->
  exists st',
    chat_completions E chat_request (Some cloud) st
    = (Raise (HTTPException status_code text), st')
    /\ calls (trace st')
       = (calls (trace st) ++ [POST_chat_completions chat_request])%list
    /\ ollama_models_cache st' = ollama_models_cache st.
Proof.
  intros Hs Hk Hu Hc.
  unfold chat_completions. unfold bind at 1. unfold datetime_now.
  simpl backend_str. simpl String.eqb. cbv iota.
  unfold bind at 1. unfold bind at 1.
  unfold emit at 1. unfold ret at 1.
  rewrite Hs. simpl String.eqb.
  unfold bind, try_except.
  rewrite dispatch_cloud_failure with (status_code := status_code)
    (text := text) (json := json); auto.
  simpl. eexists. split; [reflexivity|]. simpl.
  rewrite !calls_app. simpl. rewrite app_nil_r. auto.
Qed.

Lemma explicit_cloud_failure_is_surfaced_witness :
  exists st',
    chat_completions cloud_broken (ask "gpt-4o" false) (Some cloud) startup
    = (Raise (HTTPException 500 "Internal Server Error"), st')
    /\ calls (trace st') = [POST_chat_completions (ask "gpt-4o" false)]
    /\ ollama_models_cache st' = [].
Proof.
  apply (explicit_cloud_failure_is_surfaced cloud_broken (ask "gpt-4o" false)
           startup 500 "Internal Server Error" None).
  - reflexivity.
  - reflexivity.
  - reflexivity.
  - discriminate.
Defined.

(** The two branches that a request under Auto cannot reach are written:
    were [selected_backend] still "auto" at the backend call, the failing cloud
    call would be followed by one call to the local runtime, whose answer
    is returned under "local", and the missing credential would give the
    404 that names the model. *)
Lemma fallback_branch_as_written :
  let request := ask "gpt-4o" false in
  let '(answer, st') := dispatch cloud_down "auto" request startup in
  (exists response, answer = Return (response, "local"))
  /\ trace st'
     = [ Sent (POST_chat_completions request);
         Observed (FALLBACK_COUNT "cloud" "local");
         Sent (POST_api_chat (transform_ollama_request request)) ].
Proof.
  vm_compute. split; [eexists|]; reflexivity.
Qed.

Lemma not_found_branch_as_written :
  fst (dispatch no_cloud "auto" (ask "gpt-4o" false) startup)
  = Raise (HTTPException 404
             "Model gpt-4o not found locally and cloud not configured").
Proof. reflexivity. Qed.

(** C1, on the code.  The catalog has llama3 only, a cloud credential is
    configured, and the request is for gpt-4o under Auto, not streamed.
    Selection answers "cloud"; the cloud provider answers 503.  The code
    raises that 503: the local runtime gets no chat call, although it
    would have answered one.  The fallback branch tests
    [selected_backend == "auto"] after selection has overwritten
    [selected_backend] with "cloud". *)
Theorem auto_cloud_failure_is_not_retried :
  let request := ask "gpt-4o" false in
  let '(answer, st') :=
    chat_completions cloud_down request (Some auto) startup in
  answer = Raise (HTTPException 503 "Service Unavailable")
  /\ calls (trace st') = [GET_api_tags; POST_chat_completions request]
  /\ exists response,
       fst (handle_ollama_request cloud_down request st') = Return response.
Proof.
  vm_compute. repeat split. eexists. reflexivity.
Qed.

(** C8, on the code.  The catalog has llama3 only, no cloud credential is
    configured, and the request is for gpt-4o under Auto, not streamed.
    The model is not in the catalog and selection answers "cloud"; the code
    raises status 500, "OpenRouter API key not configured", and not the 404
    that names the model: the branch that raises the 404 is behind the test
    [selected_backend == "cloud"], which holds once selection has
    overwritten [selected_backend]. *)
Theorem auto_without_credential_is_not_a_404 :
  let request := ask "gpt-4o" false in
  let '(answer, st') :=
    chat_completions no_cloud request (Some auto) startup in
  dict_contains "gpt-4o" (ollama_models_cache st') = false
  /\ answer = Raise (HTTPException 500 "OpenRouter API key not configured")
  /\ answer
     <> Raise (HTTPException 404
                 "Model gpt-4o not found locally and cloud not configured").
Proof.
  vm_compute. repeat split. discriminate.
Qed.

(** * Further properties of the code *)

(** ** What a refresh puts in the catalog *)

Lemma dict_get_set {V} (d : dict V) k v k' :
  dict_get (dict_set d k v) k'
  = if String.eqb k' k then Some v else dict_get d k'.
Proof.
  induction d as [|[k0 v0] r IH]; simpl.
  - reflexivity.
  - destruct (String.eqb_spec k k0) as [->|Hne]; simpl.
    + destruct (String.eqb k' k0); reflexivity.
    + rewrite IH. destruct (String.eqb_spec k' k0) as [->|]; auto.
      destruct (String.eqb_spec k0 k); congruence.
Qed.

Lemma dict_contains_get {V} (d : dict V) k :
  dict_contains k d = match dict_get d k with Some _ => true | None => false end.
Proof.
  unfold dict_contains, dict_keys, list_in.
  induction d as [|[k0 v0] r IH]; simpl; auto.
  destruct (String.eqb k k0); auto.
Qed.

Lemma find_app {A} (p : A -> bool) (a b : list A) :
  find p (a ++ b)
  = match find p a with Some x => Some x | None => find p b end.
Proof. induction a as [|x a IH]; simpl; auto. destruct (p x); auto. Qed.

Lemma cache_model_get models d k :
  dict_get (cache_model models d) k
  = if named_by k d then Some d else dict_get models k.
Proof.
  unfold cache_model, named_by. rewrite !dict_get_set.
  destruct (String.eqb k (get (md_name d) "")); reflexivity.
Qed.

(** The loop of the refresh, entry by entry: a key holds the last listed
    model that it names. *)
Lemma listing_get k l : forall models,
  dict_get (fold_left cache_model l models) k
  = match find (named_by k) (rev l) with
    | Some d => Some d
    | None => dict_get models k
    end.
Proof.
  induction l as [|d l IH]; intros models; simpl.
  - reflexivity.
  - rewrite IH, find_app, cache_model_get. simpl.
    destruct (find (named_by k) (rev l)); auto.
    destruct (named_by k d); reflexivity.
Qed.

Lemma named_by_iff k d :
  named_by k d = true
  <-> k = get (md_name d) "" \/ k = base_name (get (md_name d) "").
Proof.
  unfold named_by. rewrite orb_true_iff, !String.eqb_eq. reflexivity.
Qed.

(** X1.  After a refresh that succeeds, the keys of the cache are the full
    names and the base names of the models the local runtime listed, and
    nothing else: what the cache held before is gone. *)
Theorem refresh_keys_are_names_and_base_names (E : environment) (st : state)
    (l : list model_descriptor) (k : string) :
  served_from_cache E st = false ->
  listed (api_tags E (trace st)) = Some l ->
  dict_contains k (ollama_models_cache (snd (get_ollama_models E st))) = true
  <-> exists d, In d l
                /\ (k = get (md_name d) ""
                    \/ k = base_name (get (md_name d) "")).
Proof.
  intros Hs Hl.
  destruct (lookup_refreshed E st l Hs Hl) as (st' & Hg & Hc & _).
  rewrite Hg. simpl. rewrite Hc, dict_contains_get, listing_get. simpl.
  destruct (find (named_by k) (rev l)) as [d|] eqn:Hf.
  - apply find_some in Hf. destruct Hf as [Hin Hn].
    split; auto. intros _. exists d. split.
    + now apply in_rev.
    + now apply named_by_iff.
  - split; [discriminate|]. intros (d & Hin & Hn).
    apply named_by_iff in Hn.
    rewrite (find_none _ _ Hf d) in Hn; [discriminate|].
    now apply in_rev in Hin.
Qed.

Lemma refresh_keys_are_names_and_base_names_witness :
  dict_contains "llama3"
    (ollama_models_cache (snd (get_ollama_models cloud_down startup))) = true
  <-> exists d, In d [llama3]
                /\ ("llama3" = get (md_name d) ""
                    \/ "llama3" = base_name (get (md_name d) "")).
Proof.
  apply (refresh_keys_are_names_and_base_names cloud_down startup [llama3]
           "llama3").
  - reflexivity.
  - reflexivity.
Defined.

(** X2.  After a refresh that succeeds, a key of the cache holds the last
    of the listed models that has the key as its full name or as its base
    name: of several tags of one model, the base name holds the one listed
    last. *)
Theorem last_listed_model_wins (E : environment) (st : state)
    (l : list model_descriptor) (k : string) :
  served_from_cache E st = false ->
  listed (api_tags E (trace st)) = Some l ->
  dict_get (ollama_models_cache (snd (get_ollama_models E st))) k
  = find (named_by k) (rev l).
Proof.
  intros Hs Hl.
  destruct (lookup_refreshed E st l Hs Hl) as (st' & Hg & Hc & _).
  rewrite Hg. simpl. rewrite Hc, listing_get. simpl.
  now destruct (find (named_by k) (rev l)).
Qed.

Lemma last_listed_model_wins_witness :
  dict_get (ollama_models_cache (snd (get_ollama_models two_tags startup)))
           "llama3"
  = Some llama3_8b.
Proof.
  exact (last_listed_model_wins two_tags startup
           [llama3; mistral; llama3_8b] "llama3" eq_refl eq_refl).
Defined.

(** X3.  A cache that is not empty and has the timestamp [t] answers a
    lookup by itself as long as the clock reads less than 60 seconds after
    [t]: the lookup returns the keys and only reads the clock.  From 60
    seconds on, to the microsecond, the lookup calls the model-listing
    endpoint. *)
Theorem cache_is_fresh_below_sixty_seconds (E : environment) (st : state)
    (t : Z) :
  ollama_cache_timestamp st = Some t ->
  dict_bool (ollama_models_cache st) = true ->
  let '(answer, st') := get_ollama_models E st in
  if clock E st - t <? 60000000
  then answer = Return (dict_keys (ollama_models_cache st)) /\ st' = tick st
  else calls (trace st') = (calls (trace st) ++ [GET_api_tags])%list.
Proof.
  intros Ht Hne.
  assert (Hs : served_from_cache E st = (clock E st - t <? 60000000)).
  { unfold served_from_cache. rewrite Ht, Hne. apply andb_true_r. }
  destruct (clock E st - t <? 60000000).
  - rewrite (lookup_served E st Hs). auto.
  - destruct (listed (api_tags E (trace st))) as [l|] eqn:Hl.
    + destruct (lookup_refreshed E st l Hs Hl) as (s' & Hg & _ & _ & Htr).
      rewrite Hg, Htr, calls_app. reflexivity.
    + destruct (lookup_failed E st Hs Hl) as (s' & Hg & _ & _ & Htr).
      rewrite Hg, Htr, calls_app. reflexivity.
Qed.

Lemma cache_is_fresh_below_sixty_seconds_witness :
  let st := snd (get_ollama_models on_the_minute startup) in
  clock on_the_minute st - 1700000000000000 = 60000000
  /\ calls (trace (snd (get_ollama_models on_the_minute st)))
     = [GET_api_tags; GET_api_tags].
Proof.
  split.
  - reflexivity.
  - exact (cache_is_fresh_below_sixty_seconds on_the_minute
             (snd (get_ollama_models on_the_minute startup))
             1700000000000000 eq_refl eq_refl).
Defined.

(** X4.  When the catalog is refreshed and lists a model with the same base
    name as the requested identifier, selection under Auto answers "local",
    whatever tag the request names. *)
Theorem known_base_name_selects_local (E : environment) (st : state)
    (l : list model_descriptor) (d : model_descriptor) (m : string) :
  served_from_cache E st = false ->
  listed (api_tags E (trace st)) = Some l ->
  In d l ->
  base_name (get (md_name d) "") = base_name m ->
  fst (detect_model_backend E m st) = Return "local".
Proof.
  intros Hs Hl Hin Hb.
  destruct (lookup_refreshed E st l Hs Hl) as (st' & Hg & Hc & _).
  rewrite (detect_after_lookup E m st _ _ Hg). simpl.
  assert (Hk : list_in (base_name m) (dict_keys (fold_left cache_model l []))
               = true).
  { change (dict_contains (base_name m) (fold_left cache_model l []) = true).
    rewrite dict_contains_get, listing_get.
    destruct (find (named_by (base_name m)) (rev l)) eqn:Hf; auto.
    apply in_rev in Hin.
    pose proof (find_none _ _ Hf d Hin) as Hn.
    assert (named_by (base_name m) d = true)
      by (apply named_by_iff; right; congruence).
    congruence. }
  rewrite Hk, orb_true_r. reflexivity.
Qed.

Lemma known_base_name_selects_local_witness :
  fst (detect_model_backend cloud_down "llama3:70b-instruct" startup)
  = Return "local".
Proof.
  apply (known_base_name_selects_local cloud_down startup [llama3] llama3
           "llama3:70b-instruct").
  - reflexivity.
  - reflexivity.
  - left. reflexivity.
  - reflexivity.
Defined.

(** ** Health and model listing *)

(** A lookup never raises: whatever goes wrong in a refresh is caught. *)
Lemma lookup_returns (E : environment) (st : state) :
  exists models st', get_ollama_models E st = (Return models, st').
Proof.
  destruct (served_from_cache E st) eqn:Hs.
  - rewrite (lookup_served E st Hs). eauto.
  - destruct (listed (api_tags E (trace st))) as [l|] eqn:Hl.
    + destruct (lookup_refreshed E st l Hs Hl) as (st' & Hg & _). eauto.
    + destruct (lookup_failed E st Hs Hl) as (st' & Hg & _). eauto.
Qed.

(** X5.  The health check always answers, with status "healthy"; it reports
    the local runtime as "available" whatever the runtime does, also when
    it cannot be reached, because the lookup it makes never raises; and it
    reports the cloud provider as "configured" exactly when a non-empty
    credential is set. *)
Theorem health_check_always_reports_available (E : environment)
    (start_time : Z) (st : state) :
  exists response st',
    health_check E start_time st = (Return response, st')
    /\ hr_status response = "healthy"
    /\ hr_backends response
       = [ ("ollama", "available");
           ("openrouter",
            if api_key_set E then "configured" else "not_configured") ]
    /\ hr_uptime_seconds response = clock E st - start_time.
Proof.
  unfold health_check, bind, try_except, datetime_now, ret.
  destruct (lookup_returns E (tick st)) as (models & st1 & Hg).
  rewrite Hg. simpl.
  do 2 eexists. split; [reflexivity|]. simpl.
  destruct (api_key_set E); auto.
Qed.

(** The health check of a proxy whose local runtime cannot be reached. *)
Lemma health_check_when_local_is_down :
  let '(answer, st') := health_check local_down 1699999000000000 startup in
  (exists response,
     answer = Return response
     /\ hr_backends response
        = [("ollama", "available"); ("openrouter", "configured")]
     /\ hr_uptime_seconds response = 1000000000)
  /\ calls (trace st') = [GET_api_tags]
  /\ ollama_models_cache st' = [].
Proof.
  vm_compute. split; [eexists|]; repeat split.
Qed.

(** The loop over the names of the local models stops at its first turn:
    no entry is made. *)
Lemma local_entries_none ollama_models todo models :
  fst (local_entries ollama_models todo models) = models.
Proof. destruct todo; reflexivity. Qed.

Lemma cloud_entries_app data : forall models,
  cloud_entries data models = (models ++ up_to_missing_id data)%list.
Proof.
  induction data as [|m data IH]; intros models; simpl.
  - now rewrite app_nil_r.
  - destruct (cm_id m) as [id|].
    + rewrite IH, <- app_assoc. reflexivity.
    + now rewrite app_nil_r.
Qed.

(** What [list_models] comes to: the lookup, when the filter includes the
    local models, and the entries of the cloud provider's models. *)
Lemma list_models_run E backend
    (models_upstream : list event -> http_result cloud_models_body) st :
  list_models E backend models_upstream st
  = let st' := match backend with
               | only_cloud => st
               | only_local | all_backends => snd (get_ollama_models E st)
               end in
    (Return (match backend with
             | only_local => []
             | only_cloud | all_backends =>
                 if api_key_set E
                 then up_to_missing_id
                        (cloud_listing (models_upstream (trace st')))
                 else []
             end), st').
Proof.
  unfold list_models, bind, try_except, ret, read, cloud_listing.
  destruct (lookup_returns E st) as (names & st1 & Hg).
  destruct backend; rewrite ?Hg; simpl; rewrite ?local_entries_none; auto.
  - destruct (api_key_set E); simpl; auto.
    destruct (models_upstream (trace st)) as [|code text json]; simpl; auto.
    destruct (code =? 200); [destruct json|]; simpl; auto.
    now rewrite cloud_entries_app.
  - destruct (api_key_set E); simpl; auto.
    destruct (models_upstream (trace st1)) as [|code text json]; simpl; auto.
    destruct (code =? 200); [destruct json|]; simpl; auto.
    now rewrite cloud_entries_app.
Qed.

(** X6.  The model listing always answers, and never holds a local model:
    every entry has the backend "cloud", and with the filter "local" the
    listing is empty, whatever the catalog holds.  (The loop over the local
    models indexes the list of names by a name.) *)
Theorem list_models_has_no_local_entry (E : environment)
    (backend : backend_filter)
    (models_upstream : list event -> http_result cloud_models_body)
    (st : state) :
  exists models st',
    list_models E backend models_upstream st = (Return models, st')
    /\ Forall (fun m => mi_backend m = Some "cloud") models
    /\ match backend with only_local => models = [] | _ => True end.
Proof.
  assert (Hcloud : forall data,
            Forall (fun m => mi_backend m = Some "cloud")
                   (up_to_missing_id data)).
  { induction data as [|m data IH]; simpl; [constructor|].
    destruct (cm_id m); constructor; auto. }
  rewrite list_models_run. cbv zeta.
  do 2 eexists. split; [reflexivity|].
  destruct backend; (split; [|auto]); try constructor;
    destruct (api_key_set E); auto.
Qed.

(** The listing of a proxy whose catalog has llama3, asked for the local
    models. *)
Lemma list_models_of_a_stocked_catalog :
  let st := snd (get_ollama_models cloud_down startup) in
  dict_keys (ollama_models_cache st) = ["llama3"; "llama3:latest"]
  /\ fst (list_models cloud_down only_local (provider_lists [gpt]) st)
     = Return [].
Proof. split; reflexivity. Qed.

(** X7.  With a credential configured and the filter "cloud" or "all", the
    listing holds the models of the cloud provider's 200 answer, in their
    order, up to the first model that has no id: that one and those after
    it are left out, those before it are kept.  A model without name is
    listed under its id.  Without a credential, or when the provider's
    answer is not a 200 that decodes, the listing is empty. *)
Theorem list_models_lists_cloud_up_to_missing_id (E : environment)
    (backend : backend_filter)
    (models_upstream : list event -> http_result cloud_models_body)
    (st : state) :
  backend <> only_local ->
  exists st',
    list_models E backend models_upstream st
    = (Return (if api_key_set E
               then up_to_missing_id
                      (cloud_listing (models_upstream (trace st')))
               else []), st').
Proof.
  intros Hb. rewrite list_models_run. cbv zeta.
  destruct backend; [contradiction| |]; eexists; reflexivity.
Qed.

Lemma list_models_lists_cloud_up_to_missing_id_witness :
  exists st',
    list_models cloud_down all_backends
      (provider_lists [claude; gpt; nameless; gpt]) startup
    = (Return
         [ {| mi_id := "anthropic/claude-3.5-sonnet";
              mi_name := "anthropic/claude-3.5-sonnet";
              mi_description := None;
              mi_context_length := Some 200000;
              mi_pricing := None;
              mi_backend := Some "cloud" |};
           {| mi_id := "openai/gpt-4o";
              mi_name := "GPT-4o";
              mi_description := Some "OpenAI flagship";
              mi_context_length := Some 128000;
              mi_pricing := Some [("prompt", "0.0000025")];
              mi_backend := Some "cloud" |} ], st').
Proof.
  apply (list_models_lists_cloud_up_to_missing_id cloud_down all_backends
           (provider_lists [claude; gpt; nameless; gpt]) startup).
  discriminate.
Defined.

(** ** More on the streaming relay *)

Lemma slice_from_short n : forall s,
  (String.length s <= n)%nat -> slice_from n s = "".
Proof.
  induction n as [|n IH]; intros [|c s] H; simpl in *; auto; try lia.
  apply IH. lia.
Qed.

Lemma str_bool_false s : str_bool s = false -> s = "".
Proof. destruct s; [reflexivity|discriminate]. Qed.

Lemma join_filter fragments : join (filter str_bool fragments) = join fragments.
Proof.
  induction fragments as [|d fragments IH]; simpl; auto.
  destruct (str_bool d) eqn:Hd; simpl.
  - now rewrite IH.
  - apply str_bool_false in Hd. subst d. exact IH.
Qed.

Lemma join_app a b : join (a ++ b) = (join a ++ join b)%string.
Proof.
  induction a as [|d a IH]; simpl; auto. now rewrite IH, append_assoc.
Qed.

Lemma deltas_app a b : deltas (a ++ b) = (deltas a ++ deltas b)%list.
Proof. unfold deltas. apply flat_map_app. Qed.

Section MoreRelay.

Variable E : environment.
Variables response_id model_name : string.

Local Abbreviation run := (relay E response_id model_name).

(** X8.  Empty lines and lines that are not JSON change nothing: the relay
    yields the same events, ends the same way and leaves the same state as
    on the stream without them. *)
Theorem noise_lines_are_skipped (lines : list stream_line)
    (full_content : string) (st : state) :
  run full_content lines st
  = run full_content (filter carries_payload lines) st.
Proof.
  revert full_content st.
  induction lines as [|line lines IH]; intros full_content st.
  - reflexivity.
  - destruct line as [|raw|data|]; simpl filter.
    + simpl. apply IH.
    + simpl. apply IH.
    + rewrite !relay_parsed. cbv zeta.
      destruct (get (oo_done data) false); [reflexivity|].
      now rewrite IH.
    + reflexivity.
Qed.

(** X9.  Every chunk the relay yields carries the identifier and the model
    of the stream, the object type "chat.completion.chunk" and one choice,
    of index 0; the choice has a non-empty content delta or, when it has
    none, the finish reason "stop".  An event without new text and without
    [done] is not forwarded at all. *)
Theorem yielded_chunks_are_well_formed (lines : list stream_line)
    (full_content : string) (st : state) :
  Forall (well_formed response_id model_name)
         (fst (fst (run full_content lines st))).
Proof.
  assert (Hcontent : forall s d done,
            str_bool d || done = true ->
            well_formed response_id model_name
              (content_event E response_id model_name s d done)).
  { intros s d done Hy. simpl. repeat split. eexists. split; [reflexivity|].
    simpl. destruct (str_bool d) eqn:Hd.
    - repeat split; try discriminate. intros [= ->]. discriminate.
    - simpl in Hy. subst done. repeat split; discriminate. }
  assert (Husage : forall s data,
            well_formed response_id model_name
              (usage_event E response_id model_name s data)).
  { intros s data. simpl. repeat split. eexists. split; [reflexivity|].
    simpl. repeat split; discriminate. }
  revert full_content st.
  induction lines as [|line lines IH]; intros full_content st.
  - constructor.
  - destruct line as [|raw|data|]; simpl; auto.
    change (Forall (well_formed response_id model_name)
              (fst (fst (run full_content (Parsed data :: lines) st)))).
    rewrite relay_parsed. cbv zeta.
    set (d := delta_for full_content data).
    set (done := get (oo_done data) false).
    destruct (str_bool d || done) eqn:Hy.
    + destruct done eqn:Hdone.
      * simpl. constructor; [apply Hcontent; exact Hy|].
        constructor; [apply Husage|]. constructor; [exact I|constructor].
      * specialize (IH (next_content full_content data) (tick st)).
        destruct (run (next_content full_content data) lines (tick st))
          as [[later ending] st2]. simpl in IH |- *.
        constructor; [apply Hcontent; exact Hy|exact IH].
    + destruct done eqn:Hdone.
      * rewrite orb_true_r in Hy. discriminate.
      * specialize (IH (next_content full_content data) st).
        destruct (run (next_content full_content data) lines st)
          as [[later ending] st2]. simpl in IH |- *. exact IH.
Qed.

(** X11.  An event whose text is not longer than the text of the event
    before it, and that does not have [done] set, yields nothing; its text
    becomes the text to measure the next event against.  (So a runtime that
    sends each fragment by itself, not the text so far, loses every
    fragment that is not longer than the one before, and the head of every
    one that is.) *)
Theorem text_not_longer_yields_nothing (full_content new_content : string)
    (data : ollama_object) (rest : list stream_line) (st : state) :
  text_of data = Some new_content ->
  (String.length new_content <= String.length full_content)%nat ->
  get (oo_done data) false = false ->
  run full_content (Parsed data :: rest) st = run new_content rest st.
Proof.
  intros Ht Hlen Hdone. rewrite relay_parsed. cbv zeta.
  unfold delta_for, next_content. rewrite Ht, Hdone.
  rewrite (slice_from_short _ _ Hlen). simpl.
  now destruct (run new_content rest st) as [[later ending] st2].
Qed.

(** X13.  Nothing is read after a line that has [done] set: the relay
    behaves the same whatever follows that line, a broken connection
    included. *)
Theorem lines_after_done_are_not_read (before rest : list stream_line)
    (last : ollama_object) (full_content : string) (st : state) :
  get (oo_done last) false = true ->
  run full_content (before ++ Parsed last :: rest) st
  = run full_content (before ++ [Parsed last]) st.
Proof.
  intros Hdone. revert full_content st.
  induction before as [|line before IH]; intros full_content st.
  - simpl app. rewrite !relay_parsed. cbv zeta. now rewrite Hdone.
  - destruct line as [|raw|data|]; simpl app.
    + simpl. apply IH.
    + simpl. apply IH.
    + rewrite !relay_parsed. cbv zeta.
      destruct (get (oo_done data) false); [reflexivity|].
      now rewrite IH.
    + reflexivity.
Qed.

End MoreRelay.

Lemma text_not_longer_yields_nothing_witness :
  relay chatty "chatcmpl-0" "llama3" "Hel"
        [Parsed (says "lo!" false); Parsed (says "" true)] startup
  = relay chatty "chatcmpl-0" "llama3" "lo!" [Parsed (says "" true)] startup.
Proof.
  apply (text_not_longer_yields_nothing chatty "chatcmpl-0" "llama3"
           "Hel" "lo!" (says "lo!" false)).
  - reflexivity.
  - simpl. lia.
  - reflexivity.
Defined.

Lemma lines_after_done_are_not_read_witness :
  relay chatty "chatcmpl-0" "llama3" ""
        ([Parsed (says "Hi" false)] ++ Parsed (says "Hi!" true) :: [Broken])
        startup
  = relay chatty "chatcmpl-0" "llama3" ""
          ([Parsed (says "Hi" false)] ++ [Parsed (says "Hi!" true)]) startup.
Proof.
  apply (lines_after_done_are_not_read chatty "chatcmpl-0" "llama3"
           [Parsed (says "Hi" false)] [Broken] (says "Hi!" true) "" startup).
  reflexivity.
Defined.

(** X10.  For a stream of events that carry cumulative text and end with
    [done], the deltas that the relay yields, put end to end, are the text
    of the last event: the client reads the whole text, nothing twice and
    nothing missing. *)
Theorem deltas_reassemble_the_text (E : environment)
    (chat_request : ChatRequest) (st : state) (text : string)
    (fragments : list string) (before rest : list stream_line) (d : string)
    (last : ollama_object) :
  api_chat_stream E (trace st) (transform_ollama_request chat_request)
  = StreamResponse 200 text (before ++ Parsed last :: rest) ->
  readable before = true ->
  cumulative "" fragments (events_of before) ->
  Forall (fun data => get (oo_done data) false = false) (events_of before) ->
  text_of last = Some (join fragments ++ d) ->
  get (oo_done last) false = true ->
  Some (join (deltas (fst (fst (handle_ollama_stream E chat_request st)))))
  = text_of last.
Proof.
  intros Ha Hb Hc Hn Ht Hdone.
  destruct (handle_ollama_stream_opened E chat_request st text _ Ha)
    as (id & st1 & ->).
  rewrite relay_skips by assumption.
  destruct (relay_cumulative E id (model chat_request) fragments
              (events_of before) "" st1 Hc Hn) as (out & st2 & Hp & Hdl & Hr).
  rewrite Hr, relay_parsed. cbv zeta.
  unfold delta_for. simpl append. rewrite Ht, Hdone, slice_from_app.
  rewrite orb_true_r. simpl fst.
  rewrite !deltas_app, Hdl, !join_app, join_filter. f_equal. f_equal.
  unfold deltas. simpl.
  destruct (str_bool d) eqn:Hd; simpl.
  - apply append_empty_r.
  - now apply str_bool_false in Hd.
Qed.

Lemma deltas_reassemble_the_text_witness :
  Some (join (deltas (fst (fst (handle_ollama_stream chatty
                                  (ask "llama3" true) startup)))))
  = Some "Hi there!".
Proof.
  apply (deltas_reassemble_the_text chatty (ask "llama3" true) startup ""
           ["Hi"; " there"]
           [Parsed (says "Hi" false); Blank; Parsed (says "Hi there" false);
            Invalid "{"]
           [] "!" (says "Hi there!" true)).
  - reflexivity.
  - reflexivity.
  - simpl. auto.
  - repeat constructor.
  - reflexivity.
  - reflexivity.
Defined.

(** The connection breaks after the first event. *)
Lemma unfinished_stream_has_no_terminal_event_witness :
  Forall plain (fst (fst (handle_ollama_stream cut_off (ask "llama3" true)
                            startup)))
  /\ snd (fst (handle_ollama_stream cut_off (ask "llama3" true) startup))
     <> Completed.
Proof.
  apply (unfinished_stream_has_no_terminal_event cut_off (ask "llama3" true)
           startup).
  intros status_code text lines H. injection H as _ _ <-. reflexivity.
Defined.

(** ** Which backends a request calls *)

Section Calling.

Variable E : environment.
Variable bad : event -> Prop.
Hypothesis bad_is_call : forall e, bad e -> exists c, e = Sent c.

Lemma cl_metric m : avoids bad (fun _ => True) (emit (Observed m)).
Proof.
  apply av_emit. intros Hb. destruct (bad_is_call _ Hb) as (c & Hc).
  discriminate Hc.
Qed.

Ltac cl_step :=
  first
    [ apply av_raise
    | apply av_ret; solve [auto]
    | apply cl_metric
    | apply av_silent; reflexivity
    | eapply av_bind with (Q := fun _ => True); [|intros ? _] ].

Lemma cl_send {B} c (answer : list event -> http_result B) :
  ~ bad (Sent c) -> avoids bad (fun _ => True) (send c answer).
Proof.
  intros Hc. unfold send. cl_step; [cl_step|].
  cl_step; [now apply av_emit|]. destruct (answer a); cl_step.
Qed.

Lemma cl_response_json {B} (json : option B) :
  avoids bad (fun _ => True) (response_json json).
Proof. destruct json; cl_step. Qed.

Lemma cl_counter_inc m amount :
  avoids bad (fun _ => True) (counter_inc m amount).
Proof. unfold counter_inc. destruct (amount <? 0); cl_step. Qed.

Lemma cl_get_ollama_models :
  ~ bad (Sent GET_api_tags) ->
  avoids bad (fun _ => True) (get_ollama_models E).
Proof.
  intros Ht. unfold get_ollama_models.
  cl_step; [cl_step|]. eapply av_bind with (Q := fun _ => True).
  - destruct a; [|cl_step]. repeat cl_step.
    match goal with |- context [if ?b then _ else _] => destruct b end;
      cl_step.
  - intros [keys|] _; [cl_step|].
    apply av_try_except.
    + cl_step; [now apply cl_send|]. destruct a0 as [[status_code text] json].
      destruct (status_code =? 200); [|cl_step].
      cl_step; [apply cl_response_json|]. repeat cl_step.
    + intros e h [= <-]. cl_step.
Qed.

Lemma cl_detect_model_backend m :
  ~ bad (Sent GET_api_tags) ->
  avoids bad (fun s => s = "local" \/ s = "cloud") (detect_model_backend E m).
Proof.
  intros Ht. unfold detect_model_backend.
  eapply av_bind; [now apply cl_get_ollama_models|]. intros models _.
  destruct (list_in m models); [cl_step|].
  destruct (list_in (base_name m) models); cl_step.
Qed.

Lemma cl_handle_ollama_request chat_request :
  ~ bad (Sent (POST_api_chat (transform_ollama_request chat_request))) ->
  avoids bad (fun _ => True) (handle_ollama_request E chat_request).
Proof.
  intros Hc. unfold handle_ollama_request, transform_ollama_response.
  cl_step; [now apply cl_send|]. destruct a as [[status_code text] json].
  destruct (negb (status_code =? 200)); [cl_step|].
  cl_step; [apply cl_response_json|]. repeat cl_step.
Qed.

Lemma cl_handle_openrouter_request chat_request :
  api_key_set E = false \/ ~ bad (Sent (POST_chat_completions chat_request)) ->
  avoids bad (fun _ => True) (handle_openrouter_request E chat_request).
Proof.
  intros Hc. unfold handle_openrouter_request.
  destruct (api_key_set E); simpl; [|cl_step].
  destruct Hc as [Hc|Hc]; [discriminate|].
  cl_step; [now apply cl_send|]. destruct a as [[status_code text] json].
  destruct (negb (status_code =? 200)); [cl_step|apply cl_response_json].
Qed.

Lemma cl_dispatch selected_backend chat_request :
  String.eqb selected_backend "auto" = false ->
  (String.eqb selected_backend "local" = true ->
   ~ bad (Sent (POST_api_chat (transform_ollama_request chat_request)))) ->
  (String.eqb selected_backend "local" = false ->
   api_key_set E = false
   \/ ~ bad (Sent (POST_chat_completions chat_request))) ->
  avoids bad (fun _ => True) (dispatch E selected_backend chat_request).
Proof.
  intros Hna Hl Hc. unfold dispatch. rewrite Hna.
  destruct (String.eqb selected_backend "local").
  - cl_step; [now apply cl_handle_ollama_request; auto|cl_step].
  - destruct (negb (api_key_set E)) eqn:Hk.
    + destruct (String.eqb selected_backend "cloud"); repeat cl_step.
    + apply av_try_except.
      * cl_step; [apply cl_handle_openrouter_request; auto|cl_step].
      * intros [status_code detail|what] h [= <-]. cl_step.
Qed.

Lemma cl_on_error selected_backend chat_request A e h :
  on_error selected_backend chat_request A e = Some h ->
  avoids bad (fun _ => True) h.
Proof.
  destruct e; simpl; [discriminate|]. intros [= <-]. repeat cl_step.
Qed.

Lemma cl_record_metrics request_start selected_backend chat_request
    response_data :
  avoids bad (fun _ => True)
    (record_metrics E request_start selected_backend chat_request
                    response_data).
Proof.
  unfold record_metrics. repeat cl_step.
  destruct (cmpl_usage response_data) as [u|]; [|cl_step].
  cl_step.
  - destruct (prompt_tokens u); [apply cl_counter_inc|cl_step].
  - destruct (completion_tokens u); [apply cl_counter_inc|cl_step].
Qed.

(** The calls of a request, by the backend it names: the model listing is
    called only under "auto", the local runtime's chat only under "auto" or
    "local", the cloud provider only when the backend is not "local" and a
    credential is configured. *)
Lemma cl_chat_completions chat_request backend :
  (String.eqb (named_backend E backend) "auto" = true ->
   ~ bad (Sent GET_api_tags)) ->
  (String.eqb (named_backend E backend) "auto"
   || String.eqb (named_backend E backend) "local" = true ->
   ~ bad (Sent (POST_api_chat (transform_ollama_request chat_request)))) ->
  (String.eqb (named_backend E backend) "local" = false ->
   api_key_set E = false
   \/ ~ bad (Sent (POST_chat_completions chat_request))) ->
  avoids bad (fun _ => True) (chat_completions E chat_request backend).
Proof.
  intros Ht Hl Hc. unfold chat_completions. fold (named_backend E backend).
  cl_step; [cl_step|].
  eapply av_bind with
    (Q := fun s =>
            String.eqb s "auto" = false
            /\ (String.eqb s "local" = true ->
                ~ bad (Sent (POST_api_chat
                               (transform_ollama_request chat_request))))
            /\ (String.eqb s "local" = false ->
                api_key_set E = false
                \/ ~ bad (Sent (POST_chat_completions chat_request)))).
  - destruct (String.eqb (named_backend E backend) "auto") eqn:Ha.
    + eapply av_bind; [apply cl_detect_model_backend; auto|].
      apply String.eqb_eq in Ha.
      intros s [-> | ->]; (cl_step; [cl_step|]); apply av_ret;
        repeat split; auto; try discriminate.
      intros _. apply Hc. now rewrite Ha.
    + cl_step; [cl_step|]. apply av_ret. repeat split; auto.
  - intros selected_backend (Hna & Hsl & Hsc).
    destruct (get (stream chat_request) false).
    + destruct (String.eqb selected_backend "local"); [cl_step|].
      destruct (api_key_set E) eqn:Hk; simpl; [|cl_step].
      destruct (Hsc eq_refl) as [Hf|Hf]; [discriminate|].
      cl_step; [now apply cl_send|]. destruct a0 as [[status_code text] json].
      destruct (negb (status_code =? 200)); cl_step.
    + cl_step.
      * apply av_try_except; [now apply cl_dispatch|].
        intros e h. apply cl_on_error.
      * destruct a0 as [response_data selected].
        apply av_try_except.
        -- cl_step; [apply cl_record_metrics|cl_step].
        -- intros e h. apply cl_on_error.
Qed.

End Calling.

(** X14.  A request with the override "local" calls nothing but the local
    runtime's chat endpoint, with the translated request, and a request
    with the override "cloud" nothing but the cloud provider's chat
    endpoint: neither looks the model up in the catalog, and neither
    reaches the other backend, whatever the backends answer. *)
Theorem explicit_override_calls_only_its_backend (E : environment)
    (chat_request : ChatRequest) :
  avoids (calls_other_than
            (POST_api_chat (transform_ollama_request chat_request)))
         (fun _ => True) (chat_completions E chat_request (Some local))
  /\ avoids (calls_other_than (POST_chat_completions chat_request))
            (fun _ => True) (chat_completions E chat_request (Some cloud)).
Proof.
  split.
  - apply cl_chat_completions; simpl.
    + intros e (c & -> & _). eauto.
    + discriminate.
    + intros _ (c & [= <-] & Hne). now apply Hne.
    + discriminate.
  - apply cl_chat_completions; simpl.
    + intros e (c & -> & _). eauto.
    + discriminate.
    + discriminate.
    + intros _. right. intros (c & [= <-] & Hne). now apply Hne.
Qed.

(** X19.  Without a credential the cloud provider is never called, whatever
    the request, its override and the catalog. *)
Theorem no_credential_no_cloud_call (E : environment)
    (chat_request : ChatRequest) (backend : option backend_literal) :
  api_key_set E = false ->
  avoids calls_cloud (fun _ => True)
         (chat_completions E chat_request backend).
Proof.
  intros Hk. apply cl_chat_completions.
  - intros e (body & ->). eauto.
  - intros _ (body & H). discriminate H.
  - intros _ (body & H). discriminate H.
  - intros _. now left.
Qed.

Lemma no_credential_no_cloud_call_witness :
  exists new,
    trace (snd (chat_completions no_cloud (ask "gpt-4o" false) (Some auto)
                  startup))
    = ([] ++ new)%list
    /\ (forall e, In e new -> ~ calls_cloud e)
    /\ forall a,
         fst (chat_completions no_cloud (ask "gpt-4o" false) (Some auto)
                startup) = Return a -> True.
Proof.
  exact (no_credential_no_cloud_call no_cloud (ask "gpt-4o" false)
           (Some auto) eq_refl startup).
Defined.

(** ** Explicit overrides, end to end *)

Section Overrides.

Variable E : environment.

(** A non-streaming request with the override "local" or "cloud": the
    clock is read, the selection is recorded as manual, and the backend
    call and the metrics follow. *)
Lemma chat_completions_manual chat_request b st :
  b <> auto ->
  get (stream chat_request) false = false ->
  chat_completions E chat_request (Some b) st
  = ('(response_data, selected_backend) <-
       try_except (dispatch E (backend_str b) chat_request)
                  (on_error (backend_str b) chat_request _) ;;
     try_except
       (record_metrics E (clock E st) selected_backend chat_request
                       response_data ;;
        ret (JSONResponse response_data))
       (on_error selected_backend chat_request _))
      (snd (emit (Observed (BACKEND_SELECTION (backend_str b) "manual"))
                 (tick st))).
Proof.
  intros Hb Hs. unfold chat_completions.
  unfold bind at 1. unfold datetime_now.
  destruct b; [| |contradiction]; simpl backend_str; simpl String.eqb;
    cbv iota; unfold bind at 1; unfold bind at 1; unfold emit at 1;
    unfold ret at 1; rewrite Hs; reflexivity.
Qed.

(** The local call, by what the local runtime answers. *)
Lemma handle_ollama_request_run chat_request st :
  handle_ollama_request E chat_request st
  = let st1 := snd (emit (Sent (POST_api_chat
                                  (transform_ollama_request chat_request)))
                         st) in
    match api_chat E (trace st) (transform_ollama_request chat_request) with
    | TransportFault => (Raise (Exception "transport fault"), st1)
    | Response status_code text json =>
        if status_code =? 200 then
          match json with
          | Some response_data =>
              transform_ollama_response E response_data (model chat_request)
                                        st1
          | None => (Raise (Exception "JSONDecodeError"), st1)
          end
        else (Raise (HTTPException status_code text), st1)
    end.
Proof.
  unfold handle_ollama_request. run.
  destruct (api_chat E (trace st) (transform_ollama_request chat_request))
    as [|status_code text json]; simpl; auto.
  destruct (status_code =? 200); simpl; auto.
  destruct json; reflexivity.
Qed.

Lemma dispatch_local chat_request :
  dispatch E "local" chat_request
  = (response_data <- handle_ollama_request E chat_request ;;
     ret (response_data, "local")).
Proof. reflexivity. Qed.

End Overrides.

(** X15.  A non-streaming request with the override "local": when the local
    runtime answers with a status other than 200, the request fails with
    that status and the runtime's text; the only call made is that one, and
    the cloud provider is not tried. *)
Theorem local_failure_is_surfaced (E : environment)
    (chat_request : ChatRequest) (st : state)
    (status_code : Z) (text : string) (json : option ollama_object) :
  get (stream chat_request) false = false ->
  api_chat E
    (trace st ++ [Observed (BACKEND_SELECTION "local" "manual")])%list
    (transform_ollama_request chat_request)
  = Response status_code text json ->
  status_code <> 200 ->
  exists st',
    chat_completions E chat_request (Some local) st
    = (Raise (HTTPException status_code text), st')
    /\ calls (trace st')
       = (calls (trace st)
          ++ [POST_api_chat (transform_ollama_request chat_request)])%list.
Proof.
  intros Hs Ha Hc.
  rewrite chat_completions_manual by (discriminate || assumption).
  simpl backend_str. rewrite dispatch_local.
  unfold bind, try_except. rewrite handle_ollama_request_run. cbv zeta.
  simpl trace.
  rewrite Ha. destruct (Z.eqb_spec status_code 200); [contradiction|].
  simpl. eexists. split; [reflexivity|]. simpl.
  rewrite !calls_app. simpl. now rewrite app_nil_r.
Qed.

Lemma local_failure_is_surfaced_witness :
  exists st',
    chat_completions model_gone (ask "llama3" false) (Some local) startup
    = (Raise (HTTPException 404 "model not found"), st')
    /\ calls (trace st')
       = [POST_api_chat (transform_ollama_request (ask "llama3" false))].
Proof.
  apply (local_failure_is_surfaced model_gone (ask "llama3" false) startup
           404 "model not found" None).
  - reflexivity.
  - reflexivity.
  - discriminate.
Defined.

(** X16.  A non-streaming request with the override "local": when the call
    to the local runtime raises (connection refused, timeout), or its 200
    answer cannot be decoded, the request fails with status 500 and the
    detail "Internal server error", and an error is counted for the local
    backend; the cause is not passed on. *)
Theorem unreachable_local_runtime_is_a_500 (E : environment)
    (chat_request : ChatRequest) (st : state) :
  get (stream chat_request) false = false ->
  (api_chat E
     (trace st ++ [Observed (BACKEND_SELECTION "local" "manual")])%list
     (transform_ollama_request chat_request)
   = TransportFault
   \/ exists text,
        api_chat E
          (trace st ++ [Observed (BACKEND_SELECTION "local" "manual")])%list
          (transform_ollama_request chat_request)
        = Response 200 text None) ->
  exists st',
    chat_completions E chat_request (Some local) st
    = (Raise (HTTPException 500 "Internal server error"), st')
    /\ trace st'
       = (trace st
          ++ [ Observed (BACKEND_SELECTION "local" "manual");
               Sent (POST_api_chat (transform_ollama_request chat_request));
               Observed (REQUEST_COUNT "local" (model chat_request)
                           "error") ])%list.
Proof.
  intros Hs Ha.
  rewrite chat_completions_manual by (discriminate || assumption).
  simpl backend_str. rewrite dispatch_local.
  unfold bind, try_except. rewrite handle_ollama_request_run. cbv zeta.
  simpl trace.
  destruct Ha as [Ha|(text & Ha)]; rewrite Ha; simpl;
    (eexists; split; [reflexivity|]); simpl;
    now rewrite <- !app_assoc.
Qed.

Lemma unreachable_local_runtime_is_a_500_witness :
  exists st',
    chat_completions local_down (ask "llama3" false) (Some local) startup
    = (Raise (HTTPException 500 "Internal server error"), st')
    /\ trace st'
       = [ Observed (BACKEND_SELECTION "local" "manual");
           Sent (POST_api_chat (transform_ollama_request (ask "llama3" false)));
           Observed (REQUEST_COUNT "local" "llama3" "error") ].
Proof.
  apply (unreachable_local_runtime_is_a_500 local_down (ask "llama3" false)
           startup).
  - reflexivity.
  - left. reflexivity.
Defined.

(** X17.  A non-streaming request with the override "local", answered 200
    by the local runtime with counters that are not negative: the response
    names the model as the request does, tag included, carries the
    runtime's text under the role "assistant" (the empty text when the
    answer has none), "stop" as finish reason exactly when the answer has
    [done] set, and the usage totals; the request is counted as a success
    and its prompt and completion tokens are added to the counters of the
    local backend, after one call to the local runtime. *)
Theorem local_answer_is_returned (E : environment)
    (chat_request : ChatRequest) (st : state) (text : string)
    (o : ollama_object) :
  get (stream chat_request) false = false ->
  api_chat E
    (trace st ++ [Observed (BACKEND_SELECTION "local" "manual")])%list
    (transform_ollama_request chat_request)
  = Response 200 text (Some o) ->
  0 <= get (oo_prompt_eval_count o) 0 ->
  0 <= get (oo_eval_count o) 0 ->
  exists response st' duration,
    chat_completions E chat_request (Some local) st
    = (Return (JSONResponse response), st')
    /\ cmpl_model response = model chat_request
    /\ cmpl_choices response
       = [ {| ch_index := 0;
              ch_message := {| msg_role := "assistant";
                               msg_content := get (text_of o) "" |};
              ch_finish_reason :=
                if get (oo_done o) false then Some "stop" else None |} ]
    /\ cmpl_usage response = Some (totals o)
    /\ trace st'
       = (trace st
          ++ [ Observed (BACKEND_SELECTION "local" "manual");
               Sent (POST_api_chat (transform_ollama_request chat_request));
               Observed (REQUEST_DURATION "local" (model chat_request)
                           duration);
               Observed (REQUEST_COUNT "local" (model chat_request)
                           "success");
               Observed (TOKEN_USAGE "local" (model chat_request) "prompt"
                           (get (oo_prompt_eval_count o) 0));
               Observed (TOKEN_USAGE "local" (model chat_request)
                           "completion" (get (oo_eval_count o) 0)) ])%list.
Proof.
  intros Hs Ha Hp Hc.
  assert (Hp' : (get (oo_prompt_eval_count o) 0 <? 0) = false)
    by (apply Z.ltb_ge; exact Hp).
  assert (Hc' : (get (oo_eval_count o) 0 <? 0) = false)
    by (apply Z.ltb_ge; exact Hc).
  rewrite chat_completions_manual by (discriminate || assumption).
  simpl backend_str. rewrite dispatch_local.
  unfold bind, try_except. rewrite handle_ollama_request_run. cbv zeta.
  simpl trace. rewrite Ha. simpl.
  unfold record_metrics, counter_inc, bind, emit, datetime_now. simpl.
  rewrite Hp'. simpl. rewrite Hc'. simpl.
  do 3 eexists. split; [reflexivity|]. simpl.
  repeat split.
  - unfold text_of. destruct (oo_message o); reflexivity.
  - now rewrite <- !app_assoc.
Qed.

Lemma local_answer_is_returned_witness :
  exists response st' duration,
    chat_completions cloud_down (ask "llama3:latest" false) (Some local)
                     startup
    = (Return (JSONResponse response), st')
    /\ cmpl_model response = "llama3:latest"
    /\ cmpl_choices response
       = [ {| ch_index := 0;
              ch_message := {| msg_role := "assistant";
                               msg_content := "Hi there!" |};
              ch_finish_reason := Some "stop" |} ]
    /\ cmpl_usage response
       = Some {| prompt_tokens := Some 12; completion_tokens := Some 3;
                 total_tokens := Some 15 |}
    /\ trace st'
       = [ Observed (BACKEND_SELECTION "local" "manual");
           Sent (POST_api_chat
                   (transform_ollama_request (ask "llama3:latest" false)));
           Observed (REQUEST_DURATION "local" "llama3:latest" duration);
           Observed (REQUEST_COUNT "local" "llama3:latest" "success");
           Observed (TOKEN_USAGE "local" "llama3:latest" "prompt" 12);
           Observed (TOKEN_USAGE "local" "llama3:latest" "completion" 3) ].
Proof.
  apply (local_answer_is_returned cloud_down (ask "llama3:latest" false)
           startup "" (says "Hi there!" true)).
  - reflexivity.
  - reflexivity.
  - simpl. lia.
  - simpl. lia.
Defined.

(** X18.  A non-streaming request with the override "cloud", a credential
    being configured, answered 200 by the cloud provider with usage
    counters that are not negative: the provider's response is returned as
    it is, after one call, to the cloud provider. *)
Theorem cloud_answer_passes_through (E : environment)
    (chat_request : ChatRequest) (st : state) (text : string)
    (response : completion) :
  get (stream chat_request) false = false ->
  api_key_set E = true ->
  chat_completions_upstream E
    (trace st ++ [Observed (BACKEND_SELECTION "cloud" "manual")])%list
    chat_request
  = Response 200 text (Some response) ->
  countable response ->
  exists st',
    chat_completions E chat_request (Some cloud) st
    = (Return (JSONResponse response), st')
    /\ calls (trace st')
       = (calls (trace st) ++ [POST_chat_completions chat_request])%list.
Proof.
  intros Hs Hk Hu Hcount.
  rewrite chat_completions_manual by (discriminate || assumption).
  simpl backend_str.
  assert (Hd : dispatch E "cloud" chat_request
               = try_except
                   (response_data <- handle_openrouter_request E chat_request ;;
                    ret (response_data, "cloud"))
                   (fun e => match e with
                             | HTTPException _ _ => Some (raise e)
                             | Exception _ => None
                             end)).
  { unfold dispatch. simpl String.eqb. cbv iota. rewrite Hk. reflexivity. }
  rewrite Hd. unfold handle_openrouter_request. rewrite Hk. simpl negb.
  cbv iota. unfold send. unfold bind, try_except, read, emit, ret. simpl.
  rewrite Hu. simpl.
  unfold record_metrics, bind, emit, datetime_now, ret. simpl.
  unfold countable in Hcount.
  destruct (cmpl_usage response) as [u|] eqn:Hus.
  - destruct (Hcount u eq_refl) as [Hp Hc].
    unfold counter_inc.
    destruct (prompt_tokens u) as [p|] eqn:Hpt;
      destruct (completion_tokens u) as [c|] eqn:Hct;
      try (assert (Hp' : (p <? 0) = false)
             by (apply Z.ltb_ge; now apply Hp); rewrite Hp');
      try (assert (Hc' : (c <? 0) = false)
             by (apply Z.ltb_ge; now apply Hc); rewrite Hc');
      simpl; (eexists; split; [reflexivity|]); simpl;
      rewrite !calls_app; simpl; now rewrite ?app_nil_r.
  - simpl. eexists. split; [reflexivity|]. simpl.
    rewrite !calls_app. simpl. now rewrite ?app_nil_r.
Qed.

Lemma cloud_answer_passes_through_witness :
  exists st',
    chat_completions local_down (ask "gpt-4o" false) (Some cloud) startup
    = (Return (JSONResponse answered), st')
    /\ calls (trace st') = [POST_chat_completions (ask "gpt-4o" false)].
Proof.
  apply (cloud_answer_passes_through local_down (ask "gpt-4o" false) startup
           "" answered).
  - reflexivity.
  - reflexivity.
  - reflexivity.
  - intros u [= <-]. simpl. split; intros n [= <-]; lia.
Defined.

(** X20.  A non-streaming request with the override "cloud", a credential
    being configured: when the call to the cloud provider raises
    (connection refused, timeout), the request fails with status 500 and the
    detail "Internal server error", an error is counted for the cloud
    backend, and the local runtime is not tried. *)
Theorem unreachable_cloud_provider_is_a_500 (E : environment)
    (chat_request : ChatRequest) (st : state) :
  get (stream chat_request) false = false ->
  api_key_set E = true ->
  chat_completions_upstream E
    (trace st ++ [Observed (BACKEND_SELECTION "cloud" "manual")])%list
    chat_request
  = TransportFault ->
  exists st',
    chat_completions E chat_request (Some cloud) st
    = (Raise (HTTPException 500 "Internal server error"), st')
    /\ trace st'
       = (trace st
          ++ [ Observed (BACKEND_SELECTION "cloud" "manual");
               Sent (POST_chat_completions chat_request);
               Observed (REQUEST_COUNT "cloud" (model chat_request)
                           "error") ])%list.
Proof.
  intros Hs Hk Hu.
  rewrite chat_completions_manual by (discriminate || assumption).
  simpl backend_str.
  unfold dispatch. simpl String.eqb. cbv iota. rewrite Hk. simpl negb.
  cbv iota. unfold handle_openrouter_request. rewrite Hk. simpl negb.
  cbv iota. unfold send. unfold bind, try_except, read, emit, ret, raise.
  simpl. rewrite Hu. simpl.
  eexists. split; [reflexivity|]. simpl. now rewrite <- !app_assoc.
Qed.

Lemma unreachable_cloud_provider_is_a_500_witness :
  exists st',
    chat_completions cloud_down_hard (ask "gpt-4o" false) (Some cloud) startup
    = (Raise (HTTPException 500 "Internal server error"), st')
    /\ trace st'
       = [ Observed (BACKEND_SELECTION "cloud" "manual");
           Sent (POST_chat_completions (ask "gpt-4o" false));
           Observed (REQUEST_COUNT "cloud" "gpt-4o" "error") ].
Proof.
  apply (unreachable_cloud_provider_is_a_500 cloud_down_hard
           (ask "gpt-4o" false) startup).
  - reflexivity.
  - reflexivity.
  - reflexivity.
Defined.

(** ** Requests under Auto for a model the catalog knows *)

Ltac calls_of_trace :=
  rewrite !calls_app; simpl;
  repeat rewrite app_nil_r; repeat rewrite <- app_assoc; reflexivity.

Lemma listed_base_name_is_key (l : list model_descriptor)
    (d : model_descriptor) (m : string) :
  In d l ->
  base_name (get (md_name d) "") = base_name m ->
  list_in (base_name m) (dict_keys (fold_left cache_model l [])) = true.
Proof.
  intros Hin Hb.
  change (dict_contains (base_name m) (fold_left cache_model l []) = true).
  rewrite dict_contains_get, listing_get.
  destruct (find (named_by (base_name m)) (rev l)) eqn:Hf; auto.
  apply in_rev in Hin.
  pose proof (find_none _ _ Hf d Hin) as Hn.
  assert (named_by (base_name m) d = true)
    by (apply named_by_iff; right; congruence).
  congruence.
Qed.

(** X21.  A non-streaming request under Auto, at a moment when the catalog
    is refreshed and lists a model with the base name of the requested
    identifier: the request makes two calls, the model listing and one chat
    call to the local runtime, whatever the runtime then answers; the cloud
    provider is not called.  The chat call names the base name: the tag the
    request asked for is not sent. *)
Theorem tagged_request_is_served_by_the_base_model (E : environment)
    (chat_request : ChatRequest) (st : state) (l : list model_descriptor)
    (d : model_descriptor) :
  get (stream chat_request) false = false ->
  served_from_cache E (tick st) = false ->
  listed (api_tags E (trace st)) = Some l ->
  In d l ->
  base_name (get (md_name d) "") = base_name (model chat_request) ->
  calls (trace (snd (chat_completions E chat_request (Some auto) st)))
  = (calls (trace st)
     ++ [GET_api_tags;
         POST_api_chat (transform_ollama_request chat_request)])%list
  /\ oreq_model (transform_ollama_request chat_request)
     = base_name (model chat_request).
Proof.
  intros Hs Hsv Hl Hin Hb.
  split; [|apply transform_ollama_request_rest].
  destruct (lookup_refreshed E (tick st) l Hsv Hl) as (st1 & Hg & _ & _ & Htr).
  pose proof (detect_after_lookup E (model chat_request) (tick st) _ _ Hg)
    as Hd.
  rewrite (listed_base_name_is_key l d _ Hin Hb), orb_true_r in Hd.
  unfold chat_completions. unfold bind at 1. unfold datetime_now.
  simpl backend_str. simpl String.eqb. cbv iota.
  unfold bind at 1. unfold bind at 1. rewrite Hd.
  unfold bind at 1. unfold emit at 1. unfold ret at 1.
  rewrite Hs. rewrite dispatch_local.
  unfold bind, try_except. rewrite handle_ollama_request_run. cbv zeta.
  simpl trace. rewrite Htr.
  destruct (api_chat E _ (transform_ollama_request chat_request))
    as [|status_code text json]; simpl.
  - calls_of_trace.
  - destruct (status_code =? 200); [destruct json as [o|]|]; simpl;
      try calls_of_trace.
    unfold record_metrics, counter_inc, bind, emit, datetime_now. simpl.
    destruct (get (oo_prompt_eval_count o) 0 <? 0); simpl;
      [|destruct (get (oo_eval_count o) 0 <? 0); simpl];
      calls_of_trace.
Qed.

Lemma tagged_request_is_served_by_the_base_model_witness :
  calls (trace (snd (chat_completions cloud_down
                       (ask "llama3:70b-instruct" false) (Some auto)
                       startup)))
  = [ GET_api_tags;
      POST_api_chat
        {| oreq_model := "llama3";
           oreq_messages := hello;
           oreq_stream := Some false;
           oreq_options :=
             Some [("temperature", OptFloat 0x1.6666666666666p-1%float)] |} ]
  /\ oreq_model (transform_ollama_request (ask "llama3:70b-instruct" false))
     = "llama3".
Proof.
  apply (tagged_request_is_served_by_the_base_model cloud_down
           (ask "llama3:70b-instruct" false) startup [llama3] llama3).
  - reflexivity.
  - reflexivity.
  - reflexivity.
  - left. reflexivity.
  - reflexivity.
Defined.

(** ** The model name sent to the local runtime *)

Lemma base_name_step c r :
  base_name (String c r)
  = if Ascii.eqb c ":" then "" else String c (base_name r).
Proof.
  unfold base_name. simpl.
  destruct (Ascii.eqb c ":"); [reflexivity|].
  destruct (split_cons ":" r) as (h & t & ->). reflexivity.
Qed.

Lemma base_name_has_no_colon s : occurs ":" (base_name s) = false.
Proof.
  induction s as [|c r IH]; [reflexivity|].
  rewrite base_name_step. destruct (Ascii.eqb c ":") eqn:Hc; [reflexivity|].
  simpl. now rewrite Hc.
Qed.

Lemma base_name_is_a_prefix s :
  exists suffix,
    s = (base_name s ++ suffix)%string
    /\ (suffix = "" \/ exists tag, suffix = String ":" tag).
Proof.
  induction s as [|c r (suffix & Hr & Hs)].
  - exists "". auto.
  - rewrite base_name_step. destruct (Ascii.eqb_spec c ":") as [->|Hne].
    + exists (String ":" r). split; [reflexivity|]. right. eauto.
    + exists suffix. split; [simpl; congruence|exact Hs].
Qed.

(** X23.  The model name in a request to the local runtime is the requested
    identifier cut before its first colon: it has no colon, and the
    identifier is that name followed by nothing, or by a colon and a tag.
    Translating a request that already names a base name leaves the name
    as it is. *)
Theorem local_request_names_a_bare_model (chat_request : ChatRequest) :
  let sent := oreq_model (transform_ollama_request chat_request) in
  occurs ":" sent = false
  /\ (exists suffix,
        model chat_request = (sent ++ suffix)%string
        /\ (suffix = "" \/ exists tag, suffix = String ":" tag))
  /\ base_name sent = sent.
Proof.
  destruct (transform_ollama_request_rest chat_request) as (Hm & _).
  cbv zeta. rewrite Hm. split; [|split].
  - apply base_name_has_no_colon.
  - apply base_name_is_a_prefix.
  - apply base_name_without_colon, base_name_has_no_colon.
Qed.
